(** * pbmon: a pastebin monitor

    A shallow embedding of the three revisions of [pbmon.go] found in the
    repository:

    - [MemCursor]  : the in-memory cursor monitor (field [topKey] only),
    - [FileCursor] : the cursor monitor with a state file ([topKey] and
                     [stateFile], private function [do]),
    - [CacheMon]   : the monitor that remembers key/date pairs in a
                     [bigcache] instance.

    The HTTP transport ([recent], [GetRaw]), the user callback [OnNew], the
    file system and the ticker are the environment of the program: their
    answers are supplied by oracle records, one per poll cycle, and every call
    the monitor makes to them is written to a log of events. *)

From Stdlib Require Import Strings.Byte.
From stdpp Require Import gmap strings list pretty.

(** ** Values shared by the three revisions *)

(** [pastebin.Paste] of github.com/dutchcoders/gopastebin.  [Date] holds the
    rendering [paste.Date.String()], the only way the program looks at the
    publication date. *)
Record Paste : Type := mkPaste {
  Key     : string;
  Title   : string;
  User    : string;
  Syntax  : string;
  Date    : string;
  FullURL : string
}.

(** Go [error] values: [errors.New(msg)], [fmt.Errorf(prefix + "%w", err)],
    and errors raised by the environment (network, file system, callback). *)
Inductive error : Type :=
| errors_New (msg : string)
| Errorf_w (prefix : string) (err : error)
| external (what : string).

(** [errors.Unwrap] iterated to the innermost error. *)
Fixpoint root_cause (e : error) : error :=
  match e with
  | Errorf_w _ inner => root_cause inner
  | _ => e
  end.

(** The raw body of a paste, an [io.ReadCloser] handed to the callback. *)
Definition Body : Type := list byte.

(** What the monitor asks of the outside world during one poll cycle. *)
Record Remote : Type := mkRemote {
  (** [p.recent(size)]: the decoded window, newest first, or an error *)
  recent : nat -> error + list Paste;
  (** [p.pbClient.GetRaw(key)] *)
  GetRaw : string -> error + Body;
  (** [p.OnNew(paste, body)] *)
  OnNew  : Paste -> Body -> option error
}.

Inductive event : Type :=
| EvRecent (size : nat)
| EvGetRaw (key : string)
| EvOnNew (paste : Paste).

(** The pastes handed to the callback, in the order of the calls. *)
Fixpoint delivered (log : list event) : list Paste :=
  match log with
  | [] => []
  | EvOnNew p :: rest => p :: delivered rest
  | _ :: rest => delivered rest
  end.

(** [processPaste] is the same function in the three revisions. *)
Definition processPaste (env : Remote) (paste : Paste)
  : option error * list event :=
  match GetRaw env (Key paste) with
  | inl err => (Some (Errorf_w "pastebin.GetRaw: " err), [EvGetRaw (Key paste)])
  | inr body => (OnNew env paste body, [EvGetRaw (Key paste); EvOnNew paste])
  end.

(** The scan of [fetchNewPastes] in both cursor revisions:
<<
    matchPos := len(pastes) - 1
    for i := range pastes {
        if pastes[i].Key == p.topKey { matchPos = i }
    }
>>
    [scan topKey i rest matchPos] runs the loop from index [i] on. *)
Fixpoint scan (topKey : string) (i : nat) (pastes : list Paste) (matchPos : nat)
  : nat :=
  match pastes with
  | [] => matchPos
  | x :: rest =>
      scan topKey (S i) rest (if String.eqb (Key x) topKey then i else matchPos)
  end.

Definition matchPos (pastes : list Paste) (topKey : string) : nat :=
  scan topKey 0 pastes (length pastes - 1).

(** ** The in-memory cursor monitor *)
Module MemCursor.

Record PastebinMonitor : Type := mkMonitor {
  topKey : string
}.

Definition fetchNewPastes (env : Remote) (recentSize : nat)
    (p : PastebinMonitor)
  : (list Paste * option error) * PastebinMonitor * list event :=
  match recent env recentSize with
  | inl err => (([], Some err), p, [EvRecent recentSize])
  | inr pastes =>
      match pastes with
      | [] => (([], Some (errors_New "no pastes available")), p,
               [EvRecent recentSize])
      | top :: _ =>
          if String.eqb (topKey p) ""
          then (([], None), mkMonitor (Key top), [EvRecent recentSize])
          else ((firstn (matchPos pastes (topKey p)) pastes, None),
                mkMonitor (Key top), [EvRecent recentSize])
      end
  end.

(** [for _, pp := range pastes { err := p.processPaste(pp); ... }] *)
Fixpoint dispatch (env : Remote) (pastes : list Paste)
  : option error * list event :=
  match pastes with
  | [] => (None, [])
  | pp :: rest =>
      match processPaste env pp with
      | (Some err, evs) => (Some err, evs)
      | (None, evs) =>
          let '(r, evs') := dispatch env rest in (r, evs ++ evs')
      end
  end.

(** The body of the [for range t.C] loop of [Do]. *)
Definition tick (env : Remote) (recentSize : nat) (p : PastebinMonitor)
  : option error * PastebinMonitor * list event :=
  match fetchNewPastes env recentSize p with
  | ((_, Some err), p', evs) => (Some err, p', evs)
  | ((pastes, None), p', evs) =>
      let '(r, evs') := dispatch env pastes in (r, p', evs ++ evs')
  end.

(** The ticker loop, one oracle per tick received.  [None] means that the
    loop is still waiting for a tick, [Some err] that [Do] returned [err]
    (the channel of a ticker is never closed, so the [return nil] after the
    loop is not reached). *)
Fixpoint ticks (envs : list Remote) (recentSize : nat) (p : PastebinMonitor)
  : option error * PastebinMonitor * list event :=
  match envs with
  | [] => (None, p, [])
  | env :: later =>
      match tick env recentSize p with
      | (Some err, p', evs) => (Some err, p', evs)
      | (None, p', evs) =>
          let '(r, p'', evs') := ticks later recentSize p' in
          (r, p'', evs ++ evs')
      end
  end.

(** [Do]: one call of [fetchNewPastes] whose pastes are dropped, then the
    ticker loop.  [first] answers the call made before the ticker starts. *)
Definition Do (first : Remote) (later : list Remote) (recentSize : nat)
    (p : PastebinMonitor)
  : option error * PastebinMonitor * list event :=
  match fetchNewPastes first recentSize p with
  | ((_, Some err), p', evs) => (Some err, p', evs)
  | ((_, None), p', evs) =>
      let '(r, p'', evs') := ticks later recentSize p' in
      (r, p'', evs ++ evs')
  end.

End MemCursor.

(** ** The cursor monitor with a state file *)
Module FileCursor.

Definition pasteIDLen : nat := 9.

(** An open [*os.File]: the bytes of the file and the offset of the
    descriptor. *)
Record File : Type := mkFile {
  name    : string;
  content : list byte;
  offset  : nat
}.

(** [f.Truncate(size)] resizes the file and leaves the offset alone. *)
Definition Truncate (f : File) (size : nat) : File :=
  mkFile (name f)
         (firstn size (content f) ++ repeat x00 (size - length (content f)))
         (offset f).

(** [f.Seek(off, 0)]: an offset counted from the start of the file. *)
Definition Seek (f : File) (off : nat) : File :=
  mkFile (name f) (content f) off.

(** [f.WriteString(s)] writes at the offset (a hole before it reads as
    zero bytes) and advances the offset. *)
Definition WriteString (f : File) (s : string) : File :=
  let bytes := String.list_byte_of_string s in
  let before :=
    firstn (offset f) (content f)
      ++ repeat x00 (offset f - length (content f)) in
  mkFile (name f)
         (before ++ bytes ++ skipn (offset f + length bytes) (content f))
         (offset f + length bytes).

(** What [r.Read(buf)] returns. *)
Inductive read_result : Type :=
| ReadOk (n : nat) (buf : list byte)
| ReadEOF
| ReadErr (err : error).

(** [f.Read(buf)] on a regular file: as many bytes as the buffer holds or
    the file has left, [io.EOF] when nothing is left. *)
Definition Read (f : File) (buf : list byte) : read_result * File :=
  match buf with
  | [] => (ReadOk 0 buf, f)
  | _ :: _ =>
      let data := firstn (length buf) (skipn (offset f) (content f)) in
      match data with
      | [] => (ReadEOF, f)
      | _ :: _ =>
          (ReadOk (length data) (data ++ skipn (length data) buf),
           mkFile (name f) (content f) (offset f + length data))
      end
  end.

(** A file opened anew ([os.OpenFile] on the same path at the next start
    of the program): the same bytes, the offset at the start. *)
Definition reopen (f : File) : File := mkFile (name f) (content f) 0.

(** [readState]; [broken] is the error of a reader that fails. *)
Definition readState (broken : option error) (r : File)
  : (string * option error) * File :=
  let top := repeat x00 pasteIDLen in
  match broken with
  | Some err => (("", Some (Errorf_w "read state file: " err)), r)
  | None =>
      match Read r top with
      | (ReadEOF, r') => (("", None), r')
      | (ReadErr err, r') =>
          (("", Some (Errorf_w "read state file: " err)), r')
      | (ReadOk _ top', r') => ((String.string_of_list_byte top', None), r')
      end
  end.

Record PastebinMonitor : Type := mkMonitor {
  topKey    : string;
  stateFile : File
}.

(** [loadState] when the state file was given with [SetStateFile]. *)
Definition loadState (broken : option error) (p : PastebinMonitor)
  : option error * PastebinMonitor :=
  match readState broken (stateFile p) with
  | ((_, Some err), f) => (Some err, mkMonitor "" f)
  | ((top, None), f) => (None, mkMonitor top f)
  end.

(** The file operations that fail in one poll cycle, by the key being
    saved. *)
Record Disk : Type := mkDisk {
  Truncate_fails    : string -> option error;
  Seek_fails        : string -> option error;
  WriteString_fails : string -> option error
}.

Definition fetchNewPastes (env : Remote) (recentSize : nat)
    (p : PastebinMonitor)
  : (list Paste * option error) * PastebinMonitor * list event :=
  match recent env recentSize with
  | inl err =>
      (([], Some (Errorf_w "recent pastes: " err)), p, [EvRecent recentSize])
  | inr pastes =>
      match pastes with
      | [] => (([], Some (errors_New "no pastes available")), p,
               [EvRecent recentSize])
      | top :: _ =>
          if String.eqb (topKey p) ""
          then (([], None), mkMonitor (Key top) (stateFile p),
                [EvRecent recentSize])
          else ((firstn (matchPos pastes (topKey p)) pastes, None), p,
                [EvRecent recentSize])
      end
  end.

(** The second half of the loop body of [do]: truncate, seek, write the
    key, then [p.topKey = pastes[i].Key].  An operation that fails leaves
    the file as the operations before it left it. *)
Definition persist (fs : Disk) (key : string) (p : PastebinMonitor)
  : option error * PastebinMonitor :=
  let nm := name (stateFile p) in
  match Truncate_fails fs key with
  | Some err =>
      (Some (Errorf_w (String.append "truncate " (String.append nm ": ")) err),
       p)
  | None =>
      let f1 := Truncate (stateFile p) 0 in
      match Seek_fails fs key with
      | Some err =>
          (Some (Errorf_w (String.append "seek to the beginning of "
                             (String.append nm ": ")) err),
           mkMonitor (topKey p) f1)
      | None =>
          let f2 := Seek f1 0 in
          match WriteString_fails fs key with
          | Some err =>
              (Some (Errorf_w (String.append "save state to "
                                 (String.append nm ": ")) err),
               mkMonitor (topKey p) f2)
          | None => (None, mkMonitor key (WriteString f2 key))
          end
      end
  end.

(** [for i := len(pastes) - 1; i >= 0; i-- { ... }]: [do_loop] is called
    with [n = i + 1]. *)
Fixpoint do_loop (env : Remote) (fs : Disk) (pastes : list Paste) (n : nat)
    (p : PastebinMonitor)
  : option error * PastebinMonitor * list event :=
  match n with
  | 0 => (None, p, [])
  | S i =>
      match nth_error pastes i with
      | None => (None, p, [])
      | Some pp =>
          match processPaste env pp with
          | (Some err, evs) => (Some (Errorf_w "process paste: " err), p, evs)
          | (None, evs) =>
              match persist fs (Key pp) p with
              | (Some err, p') => (Some err, p', evs)
              | (None, p') =>
                  let '(r, p'', evs') := do_loop env fs pastes i p' in
                  (r, p'', evs ++ evs')
              end
          end
      end
  end.

Definition do (env : Remote) (fs : Disk) (recentSize : nat)
    (p : PastebinMonitor)
  : option error * PastebinMonitor * list event :=
  match fetchNewPastes env recentSize p with
  | ((_, Some err), p', evs) =>
      (Some (Errorf_w "fetch pastes: " err), p', evs)
  | ((pastes, None), p', evs) =>
      let '(r, p'', evs') := do_loop env fs pastes (length pastes) p' in
      (r, p'', evs ++ evs')
  end.

(** The ticker loop of [Do], one pair of oracles per tick received. *)
Fixpoint ticks (envs : list (Remote * Disk)) (recentSize : nat)
    (p : PastebinMonitor)
  : option error * PastebinMonitor * list event :=
  match envs with
  | [] => (None, p, [])
  | (env, fs) :: later =>
      match do env fs recentSize p with
      | (Some err, p', evs) => (Some err, p', evs)
      | (None, p', evs) =>
          let '(r, p'', evs') := ticks later recentSize p' in
          (r, p'', evs ++ evs')
      end
  end.

(** [Do]: a first call of [do], then one call per tick. *)
Definition Do (first : Remote * Disk) (later : list (Remote * Disk))
    (recentSize : nat) (p : PastebinMonitor)
  : option error * PastebinMonitor * list event :=
  ticks (first :: later) recentSize p.

End FileCursor.

(** ** The monitor with a cache of key/date pairs *)
Module CacheMon.

(** The [bigcache] instance as a finite map from keys to byte values.
    Entries leave the cache when their life window (ten minutes) is over;
    which keys have expired since the previous poll cycle is told by the
    oracle below, together with the calls of the cache that fail. *)
Record PastebinMonitor : Type := mkMonitor {
  cache : gmap string (list byte)
}.

Record CacheWorld : Type := mkCacheWorld {
  expired   : list string;
  Get_fails : string -> option error;
  Set_fails : string -> option error
}.

(** The three outcomes the [switch err] of [fetchNewPastes] tells apart. *)
Inductive get_result : Type :=
| Found (v : list byte)
| ErrEntryNotFound
| GetErr (err : error).

Definition cache_Get (cw : CacheWorld) (c : gmap string (list byte))
    (key : string) : get_result :=
  match Get_fails cw key with
  | Some err => GetErr err
  | None =>
      match c !! key with
      | Some v => Found v
      | None => ErrEntryNotFound
      end
  end.

Definition cache_Set (cw : CacheWorld) (c : gmap string (list byte))
    (key : string) (v : list byte)
  : option error * gmap string (list byte) :=
  match Set_fails cw key with
  | Some err => (Some err, c)
  | None => (None, <[key := v]> c)
  end.

(** Entries whose life window is over are gone. *)
Definition evict (keys : list string) (c : gmap string (list byte))
  : gmap string (list byte) :=
  foldr delete c keys.

(** The [for _, paste := range pastes] loop of [fetchNewPastes]. *)
Fixpoint classify (cw : CacheWorld) (pastes newPastes : list Paste)
    (c : gmap string (list byte))
  : (list Paste * option error) * gmap string (list byte) :=
  match pastes with
  | [] => ((newPastes, None), c)
  | paste :: rest =>
      match cache_Get cw c (Key paste) with
      | Found v =>
          if String.eqb (String.string_of_list_byte v) (Date paste)
          then classify cw rest newPastes c
          else
            match cache_Set cw c (Key paste)
                    (String.list_byte_of_string (Date paste)) with
            | (Some err, c') => ((newPastes, Some err), c')
            | (None, c') => classify cw rest (newPastes ++ [paste]) c'
            end
      | ErrEntryNotFound =>
          match cache_Set cw c (Key paste)
                  (String.list_byte_of_string (Date paste)) with
          | (Some err, c') => ((newPastes, Some err), c')
          | (None, c') => classify cw rest (newPastes ++ [paste]) c'
          end
      | GetErr err => ((newPastes, Some err), c)
      end
  end.

Definition fetchNewPastes (env : Remote) (cw : CacheWorld) (recentSize : nat)
    (p : PastebinMonitor)
  : (list Paste * option error) * PastebinMonitor * list event :=
  match recent env recentSize with
  | inl err => (([], Some err), p, [EvRecent recentSize])
  | inr pastes =>
      let '(r, c') := classify cw pastes [] (evict (expired cw) (cache p)) in
      (r, mkMonitor c', [EvRecent recentSize])
  end.

(** [for _, pp := range pastes { err := p.processPaste(pp); ... }] *)
Fixpoint dispatch (env : Remote) (pastes : list Paste)
  : option error * list event :=
  match pastes with
  | [] => (None, [])
  | pp :: rest =>
      match processPaste env pp with
      | (Some err, evs) => (Some err, evs)
      | (None, evs) =>
          let '(r, evs') := dispatch env rest in (r, evs ++ evs')
      end
  end.

(** The body of the [for range t.C] loop of [Do]. *)
Definition tick (env : Remote) (cw : CacheWorld) (recentSize : nat)
    (p : PastebinMonitor)
  : option error * PastebinMonitor * list event :=
  match fetchNewPastes env cw recentSize p with
  | ((_, Some err), p', evs) => (Some err, p', evs)
  | ((pastes, None), p', evs) =>
      let '(r, evs') := dispatch env pastes in (r, p', evs ++ evs')
  end.

Fixpoint ticks (envs : list (Remote * CacheWorld)) (recentSize : nat)
    (p : PastebinMonitor)
  : option error * PastebinMonitor * list event :=
  match envs with
  | [] => (None, p, [])
  | (env, cw) :: later =>
      match tick env cw recentSize p with
      | (Some err, p', evs) => (Some err, p', evs)
      | (None, p', evs) =>
          let '(r, p'', evs') := ticks later recentSize p' in
          (r, p'', evs ++ evs')
      end
  end.

(** [Do]: one call of [fetchNewPastes] whose pastes are dropped, then the
    ticker loop. *)
Definition Do (first : Remote * CacheWorld)
    (later : list (Remote * CacheWorld)) (recentSize : nat)
    (p : PastebinMonitor)
  : option error * PastebinMonitor * list event :=
  match fetchNewPastes first.1 first.2 recentSize p with
  | ((_, Some err), p', evs) => (Some err, p', evs)
  | ((_, None), p', evs) =>
      let '(r, p'', evs') := ticks later recentSize p' in
      (r, p'', evs ++ evs')
  end.

End CacheMon.

(** ** The request for the recent pastes *)
Module Scrape.

(** The answer of the scraping endpoint: the status code and what
    [json.NewDecoder(resp.Body).Decode(&pastes)] makes of the body. *)
Record Response : Type := mkResponse {
  StatusCode : nat;
  Decode     : error + list Paste
}.

(** [*pastebin.PastebinClient]: [NewRequest(method, path)] returns the
    request, written here as its URL, and [Do(req)] the response. *)
Record Client : Type := mkClient {
  NewRequest : string -> string -> error + string;
  Do         : string -> error + Response
}.

(** [fmt.Sprintf("/api_scraping.php?limit=%d", size)] *)
Definition path (size : nat) : string :=
  String.append "/api_scraping.php?limit=" (pretty size).

(** [fmt.Errorf("%s returned status code %d", req.URL, resp.StatusCode)] *)
Definition status_error (url : string) (code : nat) : error :=
  errors_New (String.append url
                (String.append " returned status code " (pretty code))).

(** [recent] of the in-memory cursor monitor and of the cache monitor. *)
Definition recent (c : Client) (size : nat) : error + list Paste :=
  match NewRequest c "GET" (path size) with
  | inl err => inl err
  | inr url =>
      match Do c url with
      | inl err => inl err
      | inr resp =>
          if negb (Nat.eqb (StatusCode resp) 200)
          then inl (status_error url (StatusCode resp))
          else
            match Decode resp with
            | inl err => inl err
            | inr pastes => inr pastes
            end
      end
  end.

(** [recent] of the state file monitor: the errors of [Do] and of the
    decoder are wrapped. *)
Definition recent_wrapped (c : Client) (size : nat) : error + list Paste :=
  match NewRequest c "GET" (path size) with
  | inl err => inl err
  | inr url =>
      match Do c url with
      | inl err =>
          inl (Errorf_w (String.append "request to " (String.append url ": "))
                 err)
      | inr resp =>
          if negb (Nat.eqb (StatusCode resp) 200)
          then inl (status_error url (StatusCode resp))
          else
            match Decode resp with
            | inl err => inl (Errorf_w "decode json: " err)
            | inr pastes => inr pastes
            end
      end
  end.

End Scrape.

(** ** Constructing the state file monitor *)
Module Start.

(** The monitor while [New] builds it: the state file is [nil] until an
    option or [loadState] sets it. *)
Record Conf : Type := mkConf {
  topKey    : string;
  stateFile : option FileCursor.File
}.

(** The operating system as [New] sees it: [os.UserHomeDir()],
    [filepath.Join] and [os.OpenFile(name, os.O_RDWR|os.O_CREATE, perm)]. *)
Record OS : Type := mkOS {
  UserHomeDir : error + string;
  Join        : string -> string -> string;
  OpenFile    : string -> error + FileCursor.File
}.

(** [os.ErrInvalid], what every method of a [nil] [*os.File] returns. *)
Definition ErrInvalid : error := external "invalid argument".

(** An option of [New]: a function from a pointer to the monitor to an
    error. *)
Definition Option : Type := Conf -> option error * Conf.

(** [SetStateFile(fullLoc)]; [opened] is what [os.OpenFile] returned for
    [fullLoc] when the option was made. *)
Definition SetStateFile (opened : error + FileCursor.File) : Option :=
  match opened with
  | inl err => fun p => (Some err, p)
  | inr f => fun p => (None, mkConf (topKey p) (Some f))
  end.

(** [loadState]; [broken] is the error of a reader that fails. *)
Definition loadState (os : OS) (broken : option error) (p : Conf)
  : option error * Conf :=
  match stateFile p with
  | Some f =>
      match FileCursor.readState broken f with
      | ((top, Some err), f') => (Some err, mkConf top (Some f'))
      | ((top, None), f') => (None, mkConf top (Some f'))
      end
  | None =>
      match UserHomeDir os with
      | inl err => (Some (Errorf_w "get home directory: " err), p)
      | inr home =>
          match OpenFile os (Join os home ".pbmon") with
          | inl _ =>
              (* f is nil, and err is assigned anew by readState(f), whose
                 Read fails *)
              (Some (Errorf_w "read state file: " ErrInvalid), mkConf "" None)
          | inr f =>
              match FileCursor.readState broken f with
              | ((top, Some err), _) => (Some err, mkConf top None)
              | ((top, None), f') => (None, mkConf top (Some f'))
              end
          end
      end
  end.

(** [for _, f := range opts { err := f(conf); if err != nil { ... } }] *)
Fixpoint apply_options (opts : list Option) (conf : Conf)
  : option error * Conf :=
  match opts with
  | [] => (None, conf)
  | f :: rest =>
      match f conf with
      | (Some err, conf') => (Some err, conf')
      | (None, conf') => apply_options rest conf'
      end
  end.

(** [New]: the monitor returned, [None] for [nil], and the error. *)
Definition New (os : OS) (broken : option error) (opts : list Option)
  : option Conf * option error :=
  match apply_options opts (mkConf "" None) with
  | (Some err, _) => (None, Some err)
  | (None, conf) =>
      let '(err, conf') := loadState os broken conf in (Some conf', err)
  end.

(** The monitor [Do] runs on, once it has a state file. *)
Definition monitor (c : Conf) : option FileCursor.PastebinMonitor :=
  match stateFile c with
  | Some f => Some (FileCursor.mkMonitor (topKey c) f)
  | None => None
  end.

End Start.

(** * Properties *)

(** ** The scan for the last seen key *)

Lemma scan_app (k : string) (l1 l2 : list Paste) (i m : nat) :
  scan k i (l1 ++ l2) m = scan k (i + length l1) l2 (scan k i l1 m).
Proof.
  revert i m.
  induction l1 as [|x l1 IH]; intros i m; simpl.
  - by rewrite Nat.add_0_r.
  - rewrite IH. f_equal. lia.
Qed.

Lemma scan_absent (k : string) (l : list Paste) (i m : nat) :
  Forall (fun x => Key x <> k) l -> scan k i l m = m.
Proof.
  intros H. revert i m.
  induction H as [|x l Hx _ IH]; intros i m; simpl; [done|].
  apply String.eqb_neq in Hx. rewrite Hx. apply IH.
Qed.

(** The loop keeps the last position that matches. *)
Lemma scan_last (k : string) (l1 l2 : list Paste) (x : Paste) (i m : nat) :
  Key x = k ->
  Forall (fun y => Key y <> k) l2 ->
  scan k i (l1 ++ x :: l2) m = i + length l1.
Proof.
  intros Hx Hl2.
  rewrite scan_app. simpl.
  apply String.eqb_eq in Hx. rewrite Hx.
  by apply scan_absent.
Qed.

Lemma NoDup_keys_after (l1 l2 : list Paste) (x : Paste) :
  NoDup (map Key (l1 ++ x :: l2)) ->
  Forall (fun y => Key y <> Key x) l2.
Proof.
  rewrite map_app. simpl. intros H.
  apply NoDup_app in H as (_ & _ & H).
  apply NoDup_cons in H as [H _].
  apply Forall_forall. intros y Hy Heq.
  apply H. rewrite <- Heq. apply list_elem_of_In in Hy.
  apply list_elem_of_In. by apply in_map.
Qed.

Lemma matchPos_found (W : list Paste) (i : nat) (x : Paste) (k : string) :
  NoDup (map Key W) ->
  nth_error W i = Some x ->
  Key x = k ->
  matchPos W k = i.
Proof.
  intros Hnd Hi Hk.
  apply nth_error_split in Hi as (l1 & l2 & -> & Hlen).
  unfold matchPos. rewrite (scan_last k l1 l2 x); [exact Hlen|done|].
  subst k. by eapply NoDup_keys_after.
Qed.

Lemma matchPos_absent (W : list Paste) (k : string) :
  Forall (fun x => Key x <> k) W ->
  matchPos W k = length W - 1.
Proof. intros H. unfold matchPos. by apply scan_absent. Qed.

(** The slice [pastes[0:matchPos]] is always in range. *)
Lemma scan_bound (k : string) (l : list Paste) (i m : nat) :
  m <= i + length l - 1 -> scan k i l m <= i + length l - 1.
Proof.
  revert i m. induction l as [|x l IH]; intros i m Hm; simpl in *; [lia|].
  replace (i + S (length l) - 1) with (S i + length l - 1) by lia.
  apply IH. destruct (String.eqb (Key x) k); simpl in *; lia.
Qed.

Lemma matchPos_bound (W : list Paste) (k : string) :
  matchPos W k <= length W - 1.
Proof. unfold matchPos. by apply (scan_bound k W 0). Qed.

(** ** Dispatching one paste *)

(** The paste's body is fetched and the callback takes it. *)
Definition accepted (env : Remote) (pp : Paste) : bool :=
  match (processPaste env pp).1 with
  | None => true
  | Some _ => false
  end.

(** The events of a paste that reaches the callback. *)
Definition handed (pp : Paste) : list event := [EvGetRaw (Key pp); EvOnNew pp].

Lemma processPaste_accepted (env : Remote) (pp : Paste) :
  accepted env pp = true -> processPaste env pp = (None, handed pp).
Proof.
  unfold accepted, processPaste, handed.
  destruct (GetRaw env (Key pp)) as [err|body]; simpl; [done|].
  by destruct (OnNew env pp body).
Qed.

Lemma processPaste_refused (env : Remote) (pp : Paste) :
  accepted env pp = false ->
  exists err evs, processPaste env pp = (Some err, evs)
    /\ (evs = [EvGetRaw (Key pp)] \/ evs = handed pp).
Proof.
  unfold accepted, processPaste, handed.
  destruct (GetRaw env (Key pp)) as [err|body]; simpl.
  - intros _. eauto.
  - destruct (OnNew env pp body) as [err|]; [|done]. intros _. eauto.
Qed.

Lemma delivered_app (l1 l2 : list event) :
  delivered (l1 ++ l2) = delivered l1 ++ delivered l2.
Proof.
  induction l1 as [|e l1 IH]; simpl; [done|].
  destruct e; simpl; by rewrite ?IH.
Qed.

Lemma delivered_handed (l : list Paste) :
  delivered (flat_map handed l) = l.
Proof. induction l as [|x l IH]; simpl; by rewrite ?IH. Qed.

(** ** The in-memory cursor: dispatch in window order *)

Lemma mem_dispatch_all (env : Remote) (l : list Paste) :
  forallb (accepted env) l = true ->
  MemCursor.dispatch env l = (None, flat_map handed l).
Proof.
  induction l as [|x l IH]; simpl; [done|].
  intros [Hx Hl]%andb_prop.
  rewrite (processPaste_accepted _ _ Hx), (IH Hl). done.
Qed.

(** ** The state file monitor: the loop of [do] *)

(** The three file operations of one save succeed. *)
Definition saves (fs : FileCursor.Disk) (key : string) : bool :=
  match FileCursor.Truncate_fails fs key, FileCursor.Seek_fails fs key,
        FileCursor.WriteString_fails fs key with
  | None, None, None => true
  | _, _, _ => false
  end.

(** The monitor after key [key] was saved: the file holds the key alone and
    the offset stands behind it. *)
Definition saved (p : FileCursor.PastebinMonitor) (key : string)
  : FileCursor.PastebinMonitor :=
  FileCursor.mkMonitor key
    (FileCursor.mkFile (FileCursor.name (FileCursor.stateFile p))
       (String.list_byte_of_string key)
       (length (String.list_byte_of_string key))).

Lemma persist_saves (fs : FileCursor.Disk) (key : string)
    (p : FileCursor.PastebinMonitor) :
  saves fs key = true -> FileCursor.persist fs key p = (None, saved p key).
Proof.
  unfold saves, FileCursor.persist, saved.
  destruct (FileCursor.Truncate_fails fs key); [done|].
  destruct (FileCursor.Seek_fails fs key); [done|].
  destruct (FileCursor.WriteString_fails fs key); [done|].
  intros _. unfold FileCursor.WriteString, FileCursor.Seek, FileCursor.Truncate.
  simpl. by rewrite skipn_nil, app_nil_r.
Qed.

(** The pastes of the loop of [do] in the order it visits them. *)
Fixpoint run (env : Remote) (fs : FileCursor.Disk) (items : list Paste)
    (p : FileCursor.PastebinMonitor)
  : option error * FileCursor.PastebinMonitor * list event :=
  match items with
  | [] => (None, p, [])
  | pp :: rest =>
      match processPaste env pp with
      | (Some err, evs) => (Some (Errorf_w "process paste: " err), p, evs)
      | (None, evs) =>
          match FileCursor.persist fs (Key pp) p with
          | (Some err, p') => (Some err, p', evs)
          | (None, p') =>
              let '(r, p'', evs') := run env fs rest p' in
              (r, p'', evs ++ evs')
          end
      end
  end.

Lemma firstn_snoc (l : list Paste) (i : nat) (x : Paste) :
  nth_error l i = Some x -> firstn (S i) l = firstn i l ++ [x].
Proof.
  revert i. induction l as [|y l IH]; intros [|i] H; simpl in *; try done.
  - by inversion H.
  - by rewrite <- (IH i H).
Qed.

Lemma do_loop_run (env : Remote) (fs : FileCursor.Disk) (pastes : list Paste)
    (n : nat) (p : FileCursor.PastebinMonitor) :
  n <= length pastes ->
  FileCursor.do_loop env fs pastes n p = run env fs (rev (firstn n pastes)) p.
Proof.
  revert p. induction n as [|i IH]; intros p Hn; simpl.
  - done.
  - destruct (nth_error pastes i) as [pp|] eqn:Hi.
    + rewrite (firstn_snoc _ _ _ Hi), rev_app_distr. simpl.
      destruct (processPaste env pp) as [[err|] evs]; [done|].
      destruct (FileCursor.persist fs (Key pp) p) as [[err|] p']; [done|].
      rewrite IH by lia. done.
    + apply nth_error_None in Hi. lia.
Qed.

(** The state the loop ends in when it saved the keys of [items] in turn. *)
Definition after (p : FileCursor.PastebinMonitor) (items : list Paste)
  : FileCursor.PastebinMonitor :=
  match last items with
  | None => p
  | Some pp => saved p (Key pp)
  end.

Lemma after_cons (p : FileCursor.PastebinMonitor) (x : Paste)
    (l : list Paste) :
  after (saved p (Key x)) l = after p (x :: l).
Proof.
  unfold after. rewrite last_cons.
  destruct (last l); done.
Qed.

Lemma run_all (env : Remote) (fs : FileCursor.Disk) (items : list Paste)
    (p : FileCursor.PastebinMonitor) :
  forallb (accepted env) items = true ->
  forallb (fun pp => saves fs (Key pp)) items = true ->
  run env fs items p = (None, after p items, flat_map handed items).
Proof.
  revert p. induction items as [|x l IH]; intros p Ha Hs; simpl in *; [done|].
  apply andb_prop in Ha as [Hx Ha]. apply andb_prop in Hs as [Hsx Hs].
  rewrite (processPaste_accepted _ _ Hx), (persist_saves _ _ _ Hsx).
  rewrite (IH _ Ha Hs), after_cons. done.
Qed.

(** A run that ends without an error accepted and saved every paste. *)
Lemma run_None (env : Remote) (fs : FileCursor.Disk) (items : list Paste)
    (p p' : FileCursor.PastebinMonitor) (evs : list event) :
  run env fs items p = (None, p', evs) ->
  forallb (accepted env) items = true
  /\ forallb (fun pp => saves fs (Key pp)) items = true.
Proof.
  revert p p' evs. induction items as [|x l IH]; intros p p' evs; simpl; [done|].
  destruct (accepted env x) eqn:Hx.
  - rewrite (processPaste_accepted _ _ Hx).
    destruct (saves fs (Key x)) eqn:Hs.
    + rewrite (persist_saves _ _ _ Hs).
      destruct (run env fs l (saved p (Key x))) as [[r q] ev'] eqn:Hrun.
      intros [= -> -> <-]. simpl. by eapply IH.
    + unfold saves in Hs. unfold FileCursor.persist.
      destruct (FileCursor.Truncate_fails fs (Key x)); [done|].
      destruct (FileCursor.Seek_fails fs (Key x)); [done|].
      destruct (FileCursor.WriteString_fails fs (Key x)); done.
  - destruct (processPaste_refused _ _ Hx) as (err & ev' & -> & _). done.
Qed.

(** ** Sample data: the window c, b, a of three pastes, newest first *)

Definition paste_a : Paste := mkPaste "a" "first" "ann" "text" "1" "/a".
Definition paste_b : Paste := mkPaste "b" "second" "bob" "text" "2" "/b".
Definition paste_c : Paste := mkPaste "c" "third" "cat" "text" "3" "/c".
Definition window_cba : list Paste := [paste_c; paste_b; paste_a].

(** A remote that answers every [recent] with [W], has an empty body for
    every key, and whose callback takes every paste. *)
Definition serving (W : list Paste) : Remote :=
  mkRemote (fun _ => inr W) (fun _ => inr []) (fun _ _ => None).

(** A remote that serves [W] and whose callback refuses the paste with key
    [bad]. *)
Definition refusing (W : list Paste) (bad : string) : Remote :=
  mkRemote (fun _ => inr W) (fun _ => inr [])
           (fun pp _ => if String.eqb (Key pp) bad
                        then Some (external "callback failed") else None).

(** A disk on which every operation succeeds. *)
Definition healthy : FileCursor.Disk :=
  FileCursor.mkDisk (fun _ => None) (fun _ => None) (fun _ => None).

Definition fresh_file : FileCursor.File := FileCursor.mkFile ".pbmon" [] 0.

(** ** The first run and the empty window *)

(** C4. First run of the cursor monitors: for a non-empty window
    [top :: rest] and an unset marker ([topKey] empty), [fetchNewPastes]
    returns no paste and sets [topKey] to the key of [top], the newest paste;
    a whole cycle ([tick], [do]) calls no callback.  The state file is not
    written by this step. *)
Theorem first_run_sets_marker (env : Remote) (fs : FileCursor.Disk) (n : nat)
    (top : Paste) (rest : list Paste) (f : FileCursor.File) :
  recent env n = inr (top :: rest) ->
  MemCursor.fetchNewPastes env n (MemCursor.mkMonitor "")
    = (([], None), MemCursor.mkMonitor (Key top), [EvRecent n])
  /\ MemCursor.tick env n (MemCursor.mkMonitor "")
    = (None, MemCursor.mkMonitor (Key top), [EvRecent n])
  /\ FileCursor.fetchNewPastes env n (FileCursor.mkMonitor "" f)
    = (([], None), FileCursor.mkMonitor (Key top) f, [EvRecent n])
  /\ FileCursor.do env fs n (FileCursor.mkMonitor "" f)
    = (None, FileCursor.mkMonitor (Key top) f, [EvRecent n]).
Proof.
  intros Hw.
  unfold MemCursor.tick, FileCursor.do,
    MemCursor.fetchNewPastes, FileCursor.fetchNewPastes.
  rewrite Hw. simpl. done.
Qed.

Lemma first_run_sets_marker_witness :
  MemCursor.fetchNewPastes (serving window_cba) 50 (MemCursor.mkMonitor "")
    = (([], None), MemCursor.mkMonitor "c", [EvRecent 50])
  /\ MemCursor.tick (serving window_cba) 50 (MemCursor.mkMonitor "")
    = (None, MemCursor.mkMonitor "c", [EvRecent 50])
  /\ FileCursor.fetchNewPastes (serving window_cba) 50
       (FileCursor.mkMonitor "" fresh_file)
    = (([], None), FileCursor.mkMonitor "c" fresh_file, [EvRecent 50])
  /\ FileCursor.do (serving window_cba) healthy 50
       (FileCursor.mkMonitor "" fresh_file)
    = (None, FileCursor.mkMonitor "c" fresh_file, [EvRecent 50]).
Proof.
  apply (first_run_sets_marker (serving window_cba) healthy 50
           paste_c [paste_b; paste_a] fresh_file).
  reflexivity.
Defined.

(** C7. An empty window is an error and changes nothing: when [recent]
    returns no paste, [fetchNewPastes] of both cursor monitors fails with
    the error [no pastes available], whatever the marker holds; the cycle
    ([tick], [do], and so [Do]) returns that error (wrapped by [do] in the
    state file monitor), and the monitor, marker and state file included, is
    the one the call started with. *)
Theorem empty_window_is_error (env : Remote) (fs : FileCursor.Disk) (n : nat)
    (later : list Remote) (later' : list (Remote * FileCursor.Disk))
    (p : MemCursor.PastebinMonitor) (q : FileCursor.PastebinMonitor) :
  recent env n = inr [] ->
  MemCursor.fetchNewPastes env n p
    = (([], Some (errors_New "no pastes available")), p, [EvRecent n])
  /\ MemCursor.tick env n p
    = (Some (errors_New "no pastes available"), p, [EvRecent n])
  /\ MemCursor.Do env later n p
    = (Some (errors_New "no pastes available"), p, [EvRecent n])
  /\ FileCursor.fetchNewPastes env n q
    = (([], Some (errors_New "no pastes available")), q, [EvRecent n])
  /\ FileCursor.do env fs n q
    = (Some (Errorf_w "fetch pastes: " (errors_New "no pastes available")),
       q, [EvRecent n])
  /\ FileCursor.Do (env, fs) later' n q
    = (Some (Errorf_w "fetch pastes: " (errors_New "no pastes available")),
       q, [EvRecent n]).
Proof.
  intros Hw.
  unfold MemCursor.Do, MemCursor.tick, FileCursor.Do. simpl.
  unfold FileCursor.do, MemCursor.fetchNewPastes, FileCursor.fetchNewPastes.
  rewrite Hw. done.
Qed.

Lemma empty_window_is_error_witness :
  MemCursor.Do (serving []) [serving window_cba] 50 (MemCursor.mkMonitor "b")
    = (Some (errors_New "no pastes available"), MemCursor.mkMonitor "b",
       [EvRecent 50])
  /\ FileCursor.do (serving []) healthy 50
       (FileCursor.mkMonitor "b" fresh_file)
    = (Some (Errorf_w "fetch pastes: " (errors_New "no pastes available")),
       FileCursor.mkMonitor "b" fresh_file, [EvRecent 50]).
Proof.
  destruct (empty_window_is_error (serving []) healthy 50
              [serving window_cba] [] (MemCursor.mkMonitor "b")
              (FileCursor.mkMonitor "b" fresh_file) eq_refl)
    as (_ & _ & H1 & _ & H2 & _).
  split; [exact H1 | exact H2].
Defined.

(** ** A whole cycle of the cursor monitors *)

Lemma forallb_rev {A : Type} (f : A -> bool) (l : list A) :
  forallb f l = true -> forallb f (rev l) = true.
Proof.
  rewrite !forallb_forall. intros H x Hx. apply H. by apply in_rev.
Qed.

Lemma after_rev_cons (p : FileCursor.PastebinMonitor) (x : Paste)
    (l : list Paste) :
  after p (rev (x :: l)) = saved p (Key x).
Proof. unfold after. simpl. by rewrite last_snoc. Qed.

(** [do] when every new paste is taken by the callback and saved. *)
Lemma do_all (env : Remote) (fs : FileCursor.Disk) (n : nat)
    (p p' : FileCursor.PastebinMonitor) (pastes : list Paste)
    (evs : list event) :
  FileCursor.fetchNewPastes env n p = ((pastes, None), p', evs) ->
  forallb (accepted env) pastes = true ->
  forallb (fun pp => saves fs (Key pp)) pastes = true ->
  FileCursor.do env fs n p
    = (None, after p' (rev pastes), evs ++ flat_map handed (rev pastes)).
Proof.
  intros Hf Ha Hs. unfold FileCursor.do. rewrite Hf.
  rewrite do_loop_run by done. rewrite firstn_all.
  rewrite run_all; [done| by apply forallb_rev | by apply forallb_rev].
Qed.

(** [tick] of the in-memory monitor when the callback takes every paste. *)
Lemma mem_tick_all (env : Remote) (n : nat)
    (p p' : MemCursor.PastebinMonitor) (pastes : list Paste)
    (evs : list event) :
  MemCursor.fetchNewPastes env n p = ((pastes, None), p', evs) ->
  forallb (accepted env) pastes = true ->
  MemCursor.tick env n p = (None, p', evs ++ flat_map handed pastes).
Proof.
  intros Hf Ha. unfold MemCursor.tick. rewrite Hf.
  by rewrite mem_dispatch_all.
Qed.

Lemma eqb_unset (k : string) : k <> "" -> String.eqb k "" = false.
Proof. intros H. by apply String.eqb_neq. Qed.

(** ** The marker is in the window *)

(** C1 (as the code has it).  Let the window [top :: rest] have pairwise
    distinct keys and hold the stored, non-empty marker [lastKey] at position
    [i].  Then [fetchNewPastes] of both cursor monitors returns the pastes
    before position [i] in window order, newest first.  The in-memory monitor
    sets the marker to the key of [top] at once and its cycle hands the pastes
    to the callback newest first.  The state file monitor leaves the marker to
    [do], which hands the pastes to the callback oldest first and, when every
    callback and save succeeds, ends with the key of [top] as marker (saved
    in the state file whenever [i] is positive). *)
Theorem delta_marker_found (env : Remote) (fs : FileCursor.Disk) (n : nat)
    (top : Paste) (rest : list Paste) (i : nat) (x : Paste) (lastKey : string)
    (f : FileCursor.File) :
  recent env n = inr (top :: rest) ->
  lastKey <> "" ->
  NoDup (map Key (top :: rest)) ->
  nth_error (top :: rest) i = Some x ->
  Key x = lastKey ->
  MemCursor.fetchNewPastes env n (MemCursor.mkMonitor lastKey)
    = ((firstn i (top :: rest), None), MemCursor.mkMonitor (Key top),
       [EvRecent n])
  /\ (forallb (accepted env) (firstn i (top :: rest)) = true ->
      MemCursor.tick env n (MemCursor.mkMonitor lastKey)
        = (None, MemCursor.mkMonitor (Key top),
           EvRecent n :: flat_map handed (firstn i (top :: rest))))
  /\ FileCursor.fetchNewPastes env n (FileCursor.mkMonitor lastKey f)
    = ((firstn i (top :: rest), None), FileCursor.mkMonitor lastKey f,
       [EvRecent n])
  /\ (forallb (accepted env) (firstn i (top :: rest)) = true ->
      forallb (fun pp => saves fs (Key pp)) (firstn i (top :: rest)) = true ->
      exists p',
        FileCursor.do env fs n (FileCursor.mkMonitor lastKey f)
          = (None, p',
             EvRecent n :: flat_map handed (rev (firstn i (top :: rest))))
        /\ delivered
             (EvRecent n :: flat_map handed (rev (firstn i (top :: rest))))
           = rev (firstn i (top :: rest))
        /\ FileCursor.topKey p' = Key top
        /\ p' = match i with
                | 0 => FileCursor.mkMonitor lastKey f
                | S _ => saved (FileCursor.mkMonitor lastKey f) (Key top)
                end).
Proof.
  intros Hw Hset Hnd Hi Hk.
  pose proof (matchPos_found _ _ _ _ Hnd Hi Hk) as Hm.
  assert (Hmem : MemCursor.fetchNewPastes env n (MemCursor.mkMonitor lastKey)
    = ((firstn i (top :: rest), None), MemCursor.mkMonitor (Key top),
       [EvRecent n])).
  { unfold MemCursor.fetchNewPastes. rewrite Hw. simpl MemCursor.topKey.
    by rewrite (eqb_unset _ Hset), Hm. }
  assert (Hfile : FileCursor.fetchNewPastes env n
                    (FileCursor.mkMonitor lastKey f)
    = ((firstn i (top :: rest), None), FileCursor.mkMonitor lastKey f,
       [EvRecent n])).
  { unfold FileCursor.fetchNewPastes. rewrite Hw. simpl FileCursor.topKey.
    by rewrite (eqb_unset _ Hset), Hm. }
  split; [exact Hmem|]. split.
  { intros Ha. by rewrite (mem_tick_all _ _ _ _ _ _ Hmem Ha). }
  split; [exact Hfile|].
  intros Ha Hs. eexists. split.
  { rewrite (do_all _ _ _ _ _ _ _ Hfile Ha Hs). reflexivity. }
  split.
  { simpl. apply delivered_handed. }
  destruct i as [|i].
  - simpl in *. inversion Hi; subst. done.
  - change (firstn (S i) (top :: rest)) with (top :: firstn i rest).
    rewrite after_rev_cons. done.
Qed.

Lemma delta_marker_found_witness :
  MemCursor.fetchNewPastes (serving window_cba) 50 (MemCursor.mkMonitor "a")
    = (([paste_c; paste_b], None), MemCursor.mkMonitor "c", [EvRecent 50])
  /\ exists p',
       FileCursor.do (serving window_cba) healthy 50
         (FileCursor.mkMonitor "a" fresh_file)
       = (None, p', EvRecent 50 :: handed paste_b ++ handed paste_c)
       /\ FileCursor.topKey p' = "c".
Proof.
  assert (Hnd : NoDup (map Key window_cba)).
  { by apply (bool_decide_unpack (NoDup (map Key window_cba))). }
  assert (Hset : "a" <> "") by discriminate.
  destruct (delta_marker_found (serving window_cba) healthy 50 paste_c
              [paste_b; paste_a] 2 paste_a "a" fresh_file
              eq_refl Hset Hnd eq_refl eq_refl)
    as (H1 & _ & _ & H2).
  split; [exact H1|].
  destruct (H2 eq_refl eq_refl) as (p' & Hdo & _ & Htop & _).
  exists p'. split; [exact Hdo | exact Htop].
Defined.

(** The claim C1 as it is written fails on the in-memory monitor: with the
    window c, b, a and the marker a (found at position 2) the pastes returned
    and handed to the callback are c, b, newest first, not b, c. *)
Lemma delta_marker_found_not_reversed :
  nth_error window_cba 2 = Some paste_a
  /\ Key paste_a = "a"
  /\ (MemCursor.fetchNewPastes (serving window_cba) 50
        (MemCursor.mkMonitor "a")).1.1.1 = [paste_c; paste_b]
  /\ delivered (MemCursor.tick (serving window_cba) 50
                  (MemCursor.mkMonitor "a")).2 = [paste_c; paste_b]
  /\ rev (firstn 2 window_cba) = [paste_b; paste_c]
  /\ delivered (MemCursor.tick (serving window_cba) 50
                  (MemCursor.mkMonitor "a")).2 <> rev (firstn 2 window_cba).
Proof. repeat split; try reflexivity. discriminate. Qed.

(** ** The marker has left the window *)

(** C2 (as the code has it).  Let no paste of the window [top :: rest] have
    the stored, non-empty marker [lastKey] as key.  Then [fetchNewPastes] of
    both cursor monitors returns the window without its last paste, in window
    order, newest first.  The in-memory monitor sets the marker to the key of
    [top] and its cycle hands the pastes to the callback newest first.  The
    cycle [do] of the state file monitor hands them to the callback oldest
    first and, when every callback and save succeeds, ends with the key of
    [top] as marker if the window has two pastes or more; for a window of one
    paste nothing is handed over and marker and state file stay as they
    were. *)
Theorem delta_marker_rotated_out (env : Remote) (fs : FileCursor.Disk)
    (n : nat) (top : Paste) (rest : list Paste) (lastKey : string)
    (f : FileCursor.File) :
  recent env n = inr (top :: rest) ->
  lastKey <> "" ->
  Forall (fun x => Key x <> lastKey) (top :: rest) ->
  MemCursor.fetchNewPastes env n (MemCursor.mkMonitor lastKey)
    = ((firstn (length (top :: rest) - 1) (top :: rest), None),
       MemCursor.mkMonitor (Key top), [EvRecent n])
  /\ (forallb (accepted env)
        (firstn (length (top :: rest) - 1) (top :: rest)) = true ->
      MemCursor.tick env n (MemCursor.mkMonitor lastKey)
        = (None, MemCursor.mkMonitor (Key top),
           EvRecent n
             :: flat_map handed
                  (firstn (length (top :: rest) - 1) (top :: rest))))
  /\ FileCursor.fetchNewPastes env n (FileCursor.mkMonitor lastKey f)
    = ((firstn (length (top :: rest) - 1) (top :: rest), None),
       FileCursor.mkMonitor lastKey f, [EvRecent n])
  /\ (forallb (accepted env)
        (firstn (length (top :: rest) - 1) (top :: rest)) = true ->
      forallb (fun pp => saves fs (Key pp))
        (firstn (length (top :: rest) - 1) (top :: rest)) = true ->
      FileCursor.do env fs n (FileCursor.mkMonitor lastKey f)
        = (None,
           match rest with
           | [] => FileCursor.mkMonitor lastKey f
           | _ :: _ => saved (FileCursor.mkMonitor lastKey f) (Key top)
           end,
           EvRecent n
             :: flat_map handed
                  (rev (firstn (length (top :: rest) - 1) (top :: rest))))).
Proof.
  intros Hw Hset Habs.
  pose proof (matchPos_absent _ _ Habs) as Hm.
  assert (Hmem : MemCursor.fetchNewPastes env n (MemCursor.mkMonitor lastKey)
    = ((firstn (length (top :: rest) - 1) (top :: rest), None),
       MemCursor.mkMonitor (Key top), [EvRecent n])).
  { unfold MemCursor.fetchNewPastes. rewrite Hw. simpl MemCursor.topKey.
    by rewrite (eqb_unset _ Hset), Hm. }
  assert (Hfile : FileCursor.fetchNewPastes env n
                    (FileCursor.mkMonitor lastKey f)
    = ((firstn (length (top :: rest) - 1) (top :: rest), None),
       FileCursor.mkMonitor lastKey f, [EvRecent n])).
  { unfold FileCursor.fetchNewPastes. rewrite Hw. simpl FileCursor.topKey.
    by rewrite (eqb_unset _ Hset), Hm. }
  split; [exact Hmem|]. split.
  { intros Ha. by rewrite (mem_tick_all _ _ _ _ _ _ Hmem Ha). }
  split; [exact Hfile|].
  intros Ha Hs. rewrite (do_all _ _ _ _ _ _ _ Hfile Ha Hs).
  destruct rest as [|y rest]; [done|].
  replace (length (top :: y :: rest) - 1) with (S (length rest))
    by (simpl; lia).
  change (firstn (S (length rest)) (top :: y :: rest))
    with (top :: firstn (length rest) (y :: rest)).
  by rewrite after_rev_cons.
Qed.

Lemma delta_marker_rotated_out_witness :
  MemCursor.fetchNewPastes (serving window_cba) 50 (MemCursor.mkMonitor "z")
    = (([paste_c; paste_b], None), MemCursor.mkMonitor "c", [EvRecent 50])
  /\ FileCursor.do (serving window_cba) healthy 50
       (FileCursor.mkMonitor "z" fresh_file)
     = (None, saved (FileCursor.mkMonitor "z" fresh_file) "c",
        EvRecent 50 :: handed paste_b ++ handed paste_c).
Proof.
  assert (Hset : "z" <> "") by discriminate.
  assert (Habs : Forall (fun x => Key x <> "z") window_cba).
  { repeat constructor; discriminate. }
  destruct (delta_marker_rotated_out (serving window_cba) healthy 50 paste_c
              [paste_b; paste_a] "z" fresh_file eq_refl Hset Habs)
    as (H1 & _ & _ & H2).
  split; [exact H1 | exact (H2 eq_refl eq_refl)].
Defined.

(** The claim C2 as it is written fails twice.  On the in-memory monitor the
    pastes come newest first: window c, b, a with the marker z gives c, b and
    not b, c.  On the state file monitor a window of one paste leaves the
    marker alone: window a with the marker z ends with the marker z, not a. *)
Lemma delta_marker_rotated_out_fails :
  Forall (fun x => Key x <> "z") window_cba
  /\ (MemCursor.fetchNewPastes (serving window_cba) 50
        (MemCursor.mkMonitor "z")).1.1.1 = [paste_c; paste_b]
  /\ delivered (MemCursor.tick (serving window_cba) 50
                  (MemCursor.mkMonitor "z")).2
     <> rev (firstn (length window_cba - 1) window_cba)
  /\ Forall (fun x => Key x <> "z") [paste_a]
  /\ FileCursor.do (serving [paste_a]) healthy 50
       (FileCursor.mkMonitor "z" fresh_file)
     = (None, FileCursor.mkMonitor "z" fresh_file, [EvRecent 50])
  /\ FileCursor.topKey
       (FileCursor.do (serving [paste_a]) healthy 50
          (FileCursor.mkMonitor "z" fresh_file)).1.2
     <> Key paste_a.
Proof.
  split; [repeat constructor; discriminate|].
  split; [reflexivity|].
  split; [discriminate|].
  split; [repeat constructor; discriminate|].
  split; [reflexivity | discriminate].
Qed.

(** ** Polling the same window again *)

Lemma mem_fetch_at_top (env : Remote) (n : nat) (top : Paste)
    (rest : list Paste) :
  recent env n = inr (top :: rest) ->
  NoDup (map Key (top :: rest)) ->
  MemCursor.fetchNewPastes env n (MemCursor.mkMonitor (Key top))
    = (([], None), MemCursor.mkMonitor (Key top), [EvRecent n]).
Proof.
  intros Hw Hnd. unfold MemCursor.fetchNewPastes. rewrite Hw.
  simpl MemCursor.topKey.
  destruct (String.eqb (Key top) "") eqn:He; [done|].
  by rewrite (matchPos_found (top :: rest) 0 top (Key top)).
Qed.

Lemma file_fetch_at_top (env : Remote) (n : nat) (top : Paste)
    (rest : list Paste) (f : FileCursor.File) :
  recent env n = inr (top :: rest) ->
  NoDup (map Key (top :: rest)) ->
  FileCursor.fetchNewPastes env n (FileCursor.mkMonitor (Key top) f)
    = (([], None), FileCursor.mkMonitor (Key top) f, [EvRecent n]).
Proof.
  intros Hw Hnd. unfold FileCursor.fetchNewPastes. rewrite Hw.
  simpl FileCursor.topKey. simpl FileCursor.stateFile.
  destruct (String.eqb (Key top) "") eqn:He; [done|].
  by rewrite (matchPos_found (top :: rest) 0 top (Key top)).
Qed.

Lemma do_nothing_new (env : Remote) (fs : FileCursor.Disk) (n : nat)
    (q : FileCursor.PastebinMonitor) (evs : list event) :
  FileCursor.fetchNewPastes env n q = (([], None), q, evs) ->
  FileCursor.do env fs n q = (None, q, evs).
Proof.
  intros Hf. unfold FileCursor.do. rewrite Hf. simpl. by rewrite app_nil_r.
Qed.

(** C6. Idempotence of the cursor monitors.  Let the window [W] have pairwise
    distinct keys and let nothing be published between two polls.  When
    [fetchNewPastes] of the in-memory monitor succeeds on [W], a second call
    on [W] with the marker the first call left returns no paste.  When a
    cycle [do] of the state file monitor succeeds on [W], [fetchNewPastes]
    and [do] on [W] with the monitor the cycle left find no new paste, call
    no callback and leave the monitor as it is. *)
Theorem delta_idempotent (env : Remote) (fs : FileCursor.Disk) (n : nat)
    (W : list Paste)
    (p p1 : MemCursor.PastebinMonitor) (items : list Paste)
    (q q1 : FileCursor.PastebinMonitor) (evs evs' : list event) :
  recent env n = inr W ->
  NoDup (map Key W) ->
  (MemCursor.fetchNewPastes env n p = ((items, None), p1, evs) ->
   MemCursor.fetchNewPastes env n p1 = (([], None), p1, [EvRecent n]))
  /\ (FileCursor.do env fs n q = (None, q1, evs') ->
      FileCursor.fetchNewPastes env n q1 = (([], None), q1, [EvRecent n])
      /\ FileCursor.do env fs n q1 = (None, q1, [EvRecent n])).
Proof.
  intros Hw Hnd. split.
  - unfold MemCursor.fetchNewPastes at 1. rewrite Hw.
    destruct W as [|top rest]; [done|].
    assert (p1 = MemCursor.mkMonitor (Key top) ->
            MemCursor.fetchNewPastes env n p1
              = (([], None), p1, [EvRecent n])) as Hgo.
    { intros ->. by apply (mem_fetch_at_top env n top rest). }
    destruct (String.eqb (MemCursor.topKey p) ""); intros [= _ <- _];
      by apply Hgo.
  - intros Hdo.
    enough (FileCursor.fetchNewPastes env n q1 = (([], None), q1, [EvRecent n]))
      as Hf by (split; [exact Hf | by apply do_nothing_new]).
    revert Hdo. unfold FileCursor.do, FileCursor.fetchNewPastes at 1.
    rewrite Hw. destruct W as [|top rest]; [done|].
    destruct (String.eqb (FileCursor.topKey q) "") eqn:Hq.
    + simpl. intros [= <- _]. by apply (file_fetch_at_top env n top rest).
    + rewrite do_loop_run by done. rewrite firstn_all.
      set (m := matchPos (top :: rest) (FileCursor.topKey q)).
      destruct (run env fs (rev (firstn m (top :: rest))) q)
        as [[r q'] ev] eqn:Hrun.
      intros [= -> -> _].
      destruct (run_None _ _ _ _ _ _ Hrun) as [Ha Hs].
      rewrite (run_all _ _ _ _ Ha Hs) in Hrun.
      injection Hrun as Hq1 _.
      destruct m as [|m'] eqn:Hm.
      * simpl in Hq1. subst q1. unfold FileCursor.fetchNewPastes.
        change (after q []) with q. rewrite Hw, Hq. fold m. by rewrite Hm.
      * change (firstn (S m') (top :: rest)) with (top :: firstn m' rest) in Hq1.
        rewrite after_rev_cons in Hq1. subst q1.
        by apply (file_fetch_at_top env n top rest).
Qed.

Lemma delta_idempotent_witness :
  MemCursor.fetchNewPastes (serving window_cba) 50 (MemCursor.mkMonitor "c")
    = (([], None), MemCursor.mkMonitor "c", [EvRecent 50])
  /\ FileCursor.do (serving window_cba) healthy 50
       (saved (FileCursor.mkMonitor "a" fresh_file) "c")
     = (None, saved (FileCursor.mkMonitor "a" fresh_file) "c", [EvRecent 50]).
Proof.
  assert (Hnd : NoDup (map Key window_cba)).
  { by apply (bool_decide_unpack (NoDup (map Key window_cba))). }
  destruct (delta_idempotent (serving window_cba) healthy 50 window_cba
              (MemCursor.mkMonitor "a") (MemCursor.mkMonitor "c")
              [paste_c; paste_b]
              (FileCursor.mkMonitor "a" fresh_file)
              (saved (FileCursor.mkMonitor "a" fresh_file) "c")
              [EvRecent 50]
              (EvRecent 50 :: handed paste_b ++ handed paste_c)
              eq_refl Hnd) as [H1 H2].
  split; [exact (H1 eq_refl) | exact (proj2 (H2 eq_refl))].
Defined.

(** ** The state file read back *)

Lemma length_list_byte_of_string (s : string) :
  length (String.list_byte_of_string s) = String.length s.
Proof.
  unfold String.list_byte_of_string.
  induction s as [|a s IH]; simpl; [done|]. by rewrite IH.
Qed.

Lemma length_string_of_list_byte (l : list byte) :
  String.length (String.string_of_list_byte l) = length l.
Proof.
  unfold String.string_of_list_byte.
  induction l as [|b l IH]; simpl; [done|]. by rewrite IH.
Qed.

(** [readState] on a file opened anew. *)
Lemma readState_reopened (nm : string) (l : list byte) (off : nat) :
  (FileCursor.readState None
     (FileCursor.reopen (FileCursor.mkFile nm l off))).1 =
    match l with
    | [] => ("", None)
    | _ :: _ =>
        (String.string_of_list_byte
           (firstn FileCursor.pasteIDLen l
              ++ repeat x00 (FileCursor.pasteIDLen - length l)), None)
    end.
Proof.
  unfold FileCursor.readState, FileCursor.Read, FileCursor.reopen,
    FileCursor.pasteIDLen.
  simpl FileCursor.content. simpl FileCursor.offset.
  do 9 (destruct l as [|? l]; [reflexivity|]). reflexivity.
Qed.

(** What [readState] returns at the next start of the program after the loop
    of [do] saved key [k]. *)
Definition read_back (fs : FileCursor.Disk) (k : string)
    (p : FileCursor.PastebinMonitor) : string * option error :=
  (FileCursor.readState None
     (FileCursor.reopen (FileCursor.stateFile (FileCursor.persist fs k p).2))).1.

Lemma read_back_saved (fs : FileCursor.Disk) (k : string)
    (p : FileCursor.PastebinMonitor) :
  saves fs k = true ->
  read_back fs k p =
    match String.list_byte_of_string k with
    | [] => ("", None)
    | _ :: _ =>
        (String.string_of_list_byte
           (firstn FileCursor.pasteIDLen (String.list_byte_of_string k)
              ++ repeat x00
                   (FileCursor.pasteIDLen - String.length k)), None)
    end.
Proof.
  intros Hs. unfold read_back. rewrite (persist_saves _ _ _ Hs).
  unfold saved. simpl FileCursor.stateFile.
  rewrite readState_reopened. by rewrite length_list_byte_of_string.
Qed.

Lemma read_back_length (fs : FileCursor.Disk) (k : string)
    (p : FileCursor.PastebinMonitor) :
  saves fs k = true ->
  String.length k <> 0 ->
  String.length (read_back fs k p).1 = FileCursor.pasteIDLen.
Proof.
  intros Hs Hk. rewrite (read_back_saved _ _ _ Hs).
  pose proof (length_list_byte_of_string k) as Hlen.
  destruct (String.list_byte_of_string k) as [|b bs] eqn:Hb.
  { simpl in Hlen. congruence. }
  cbv beta iota. simpl fst. rewrite length_string_of_list_byte.
  simpl length in *. rewrite length_app, length_firstn, repeat_length.
  unfold FileCursor.pasteIDLen. lia.
Qed.

(** C10. The state file read back.  After the loop of [do] has saved key [k]
    (truncate, seek, write, all three succeeding), [readState] on the file
    opened anew returns [k] itself when [k] is [pasteIDLen] = 9 bytes long;
    on an empty file it returns the empty string, the unset marker; for a key
    of 1 to 8 bytes it returns the key filled up with zero bytes to 9 bytes,
    which is not [k].  In all, the string read back is [k] exactly for keys
    of 9 bytes and for the empty key. *)
Theorem state_file_round_trip (fs : FileCursor.Disk) (k : string)
    (p : FileCursor.PastebinMonitor) :
  saves fs k = true ->
  (String.length k = FileCursor.pasteIDLen -> read_back fs k p = (k, None))
  /\ (forall f : FileCursor.File,
        FileCursor.content f = [] ->
        FileCursor.readState None f = (("", None), f))
  /\ (0 < String.length k < FileCursor.pasteIDLen ->
      read_back fs k p
        = (String.string_of_list_byte
             (String.list_byte_of_string k
                ++ repeat x00 (FileCursor.pasteIDLen - String.length k)),
           None)
      /\ (read_back fs k p).1 <> k)
  /\ ((read_back fs k p).1 = k
      <-> String.length k = FileCursor.pasteIDLen \/ String.length k = 0).
Proof.
  intros Hs.
  pose proof (length_list_byte_of_string k) as Hlen.
  assert (H9 : String.length k = FileCursor.pasteIDLen ->
               read_back fs k p = (k, None)).
  { intros Hk. rewrite (read_back_saved _ _ _ Hs).
    destruct (String.list_byte_of_string k) as [|b bs] eqn:Hb.
    { simpl in Hlen. unfold FileCursor.pasteIDLen in Hk. lia. }
    rewrite firstn_all2 by lia.
    rewrite Hk, Nat.sub_diag. simpl repeat. rewrite app_nil_r, <- Hb.
    by rewrite String.string_of_list_byte_of_string. }
  split; [exact H9|]. split.
  { intros f Hf. unfold FileCursor.readState, FileCursor.Read.
    by rewrite Hf, skipn_nil. }
  split.
  { intros Hk. split.
    - rewrite (read_back_saved _ _ _ Hs).
      destruct (String.list_byte_of_string k) as [|b bs] eqn:Hb.
      { simpl in Hlen. lia. }
      rewrite firstn_all2 by lia. done.
    - intros Heq.
      pose proof (read_back_length fs k p Hs) as Hl.
      rewrite Heq in Hl. lia. }
  split.
  - intros Heq. destruct (Nat.eq_dec (String.length k) 0) as [H0|H0];
      [by right|left].
    pose proof (read_back_length fs k p Hs H0) as Hl. by rewrite Heq in Hl.
  - intros [Hk|Hk]; [by rewrite (H9 Hk)|].
    destruct k; [|done]. by rewrite (read_back_saved _ _ _ Hs).
Qed.

Lemma state_file_round_trip_witness :
  read_back healthy "Ab3dEf9hZ" (FileCursor.mkMonitor "" fresh_file)
    = ("Ab3dEf9hZ", None)
  /\ (read_back healthy "abc" (FileCursor.mkMonitor "" fresh_file)).1 <> "abc".
Proof.
  destruct (state_file_round_trip healthy "Ab3dEf9hZ"
              (FileCursor.mkMonitor "" fresh_file) eq_refl) as (H1 & _).
  destruct (state_file_round_trip healthy "abc"
              (FileCursor.mkMonitor "" fresh_file) eq_refl)
    as (_ & _ & H2 & _).
  split; [exact (H1 eq_refl)|].
  apply H2. unfold FileCursor.pasteIDLen. simpl. lia.
Defined.

(** ** The cache monitor: classifying a window *)

(** Neither [Get] nor [Set] fails for the key. *)
Definition sound (cw : CacheMon.CacheWorld) (key : string) : bool :=
  match CacheMon.Get_fails cw key, CacheMon.Set_fails cw key with
  | None, None => true
  | _, _ => false
  end.

(** The paste is new for the cache: its key is absent, or present with
    another date. *)
Definition is_new (c : gmap string (list byte)) (paste : Paste) : bool :=
  match c !! Key paste with
  | None => true
  | Some v => negb (String.eqb (String.string_of_list_byte v) (Date paste))
  end.

(** The cache with the date of the paste written under its key. *)
Definition record (c : gmap string (list byte)) (paste : Paste)
  : gmap string (list byte) :=
  <[Key paste := String.list_byte_of_string (Date paste)]> c.

(** One turn of the loop of [fetchNewPastes]. *)
Lemma classify_step (cw : CacheMon.CacheWorld) (paste : Paste)
    (rest acc : list Paste) (c : gmap string (list byte)) :
  sound cw (Key paste) = true ->
  CacheMon.classify cw (paste :: rest) acc c =
    if is_new c paste
    then CacheMon.classify cw rest (acc ++ [paste]) (record c paste)
    else CacheMon.classify cw rest acc c.
Proof.
  unfold sound, is_new, record. simpl.
  unfold CacheMon.cache_Get, CacheMon.cache_Set.
  destruct (CacheMon.Get_fails cw (Key paste)); [done|].
  destruct (CacheMon.Set_fails cw (Key paste)); [done|]. intros _.
  destruct (c !! Key paste) as [v|]; [|done].
  by destruct (String.eqb (String.string_of_list_byte v) (Date paste)).
Qed.

(** The loop writes under the keys of the window only. *)
Lemma classify_lookup_other (cw : CacheMon.CacheWorld) (W acc : list Paste)
    (c : gmap string (list byte)) (k : string) :
  ~ In k (map Key W) ->
  (CacheMon.classify cw W acc c).2 !! k = c !! k.
Proof.
  revert acc c. induction W as [|x W IH]; intros acc c Hk; simpl; [done|].
  simpl in Hk.
  assert (Hx : Key x <> k) by tauto. assert (HW : ~ In k (map Key W)) by tauto.
  unfold CacheMon.cache_Get, CacheMon.cache_Set.
  destruct (CacheMon.Get_fails cw (Key x)); [done|].
  assert (Hset : forall acc',
    (match (match CacheMon.Set_fails cw (Key x) with
            | Some err => (Some err, c)
            | None =>
                (None, <[Key x := String.list_byte_of_string (Date x)]> c)
            end) with
     | (Some err, c') => ((acc, Some err), c')
     | (None, c') => CacheMon.classify cw W acc' c'
     end).2 !! k = c !! k).
  { intros acc'. destruct (CacheMon.Set_fails cw (Key x)); simpl; [done|].
    rewrite IH by done. by rewrite lookup_insert_ne. }
  destruct (c !! Key x) as [v|]; [|apply Hset].
  destruct (String.eqb (String.string_of_list_byte v) (Date x));
    [by apply IH | apply Hset].
Qed.

Lemma classify_no_error (cw : CacheMon.CacheWorld) (W acc : list Paste)
    (c : gmap string (list byte)) :
  forallb (fun pp => sound cw (Key pp)) W = true ->
  (CacheMon.classify cw W acc c).1.2 = None.
Proof.
  revert acc c. induction W as [|x W IH]; intros acc c Hs; [done|].
  simpl in Hs. apply andb_prop in Hs as [Hx Hs].
  rewrite classify_step by done. destruct (is_new c x); by apply IH.
Qed.

Lemma is_new_record_other (c : gmap string (list byte)) (x y : Paste) :
  Key x <> Key y -> is_new (record c x) y = is_new c y.
Proof.
  intros H. unfold is_new, record. by rewrite lookup_insert_ne.
Qed.

(** With pairwise distinct keys every paste of the window is classified
    against the cache the loop started with. *)
Lemma classify_filter (cw : CacheMon.CacheWorld) (W acc : list Paste)
    (c : gmap string (list byte)) :
  forallb (fun pp => sound cw (Key pp)) W = true ->
  NoDup (map Key W) ->
  (CacheMon.classify cw W acc c).1.1 = acc ++ List.filter (is_new c) W.
Proof.
  revert acc c. induction W as [|x W IH]; intros acc c Hs Hnd.
  { simpl. by rewrite app_nil_r. }
  simpl in Hs. apply andb_prop in Hs as [Hx Hs].
  simpl in Hnd. apply NoDup_cons in Hnd as [Hxk Hnd].
  rewrite classify_step by done. simpl List.filter.
  destruct (is_new c x).
  - rewrite IH by done. rewrite <- app_assoc. simpl. do 2 f_equal.
    apply filter_ext_in. intros y Hy. apply is_new_record_other.
    intros Heq. apply Hxk. rewrite Heq. apply list_elem_of_In. by apply in_map.
  - by apply IH.
Qed.

(** After the loop every paste of the window has its date in the cache. *)
Lemma classify_lookup_in (cw : CacheMon.CacheWorld) (W acc : list Paste)
    (c : gmap string (list byte)) (x : Paste) :
  forallb (fun pp => sound cw (Key pp)) W = true ->
  NoDup (map Key W) ->
  In x W ->
  (CacheMon.classify cw W acc c).2 !! Key x
    = Some (String.list_byte_of_string (Date x)).
Proof.
  revert acc c. induction W as [|y W IH]; intros acc c Hs Hnd Hin; [done|].
  simpl in Hs. apply andb_prop in Hs as [Hy Hs].
  simpl in Hnd. apply NoDup_cons in Hnd as [Hyk Hnd].
  rewrite classify_step by done.
  destruct Hin as [->|Hin].
  - assert (Hout : ~ In (Key x) (map Key W)).
    { intros H. apply Hyk. by apply list_elem_of_In. }
    unfold is_new. destruct (c !! Key x) as [v|] eqn:Hc.
    + destruct (String.eqb (String.string_of_list_byte v) (Date x)) eqn:He;
        simpl; rewrite classify_lookup_other by done.
      * apply String.eqb_eq in He. rewrite Hc, <- He.
        by rewrite String.list_byte_of_string_of_list_byte.
      * unfold record. by rewrite lookup_insert_eq.
    + rewrite classify_lookup_other by done.
      unfold record. by rewrite lookup_insert_eq.
  - destruct (is_new c y); by apply IH.
Qed.

Lemma evict_lookup (keys : list string) (c : gmap string (list byte))
    (k : string) :
  ~ In k keys -> CacheMon.evict keys c !! k = c !! k.
Proof.
  induction keys as [|a keys IH]; intros Hk; simpl; [done|].
  simpl in Hk. rewrite lookup_delete_ne by tauto. apply IH. tauto.
Qed.

(** The pastes one poll of the cache monitor classifies as new, and the
    monitor it leaves. *)
Definition detected (env : Remote) (cw : CacheMon.CacheWorld) (n : nat)
    (p : CacheMon.PastebinMonitor) : list Paste :=
  (CacheMon.fetchNewPastes env cw n p).1.1.1.

Definition next (env : Remote) (cw : CacheMon.CacheWorld) (n : nat)
    (p : CacheMon.PastebinMonitor) : CacheMon.PastebinMonitor :=
  (CacheMon.fetchNewPastes env cw n p).1.2.

Lemma fetch_classify (env : Remote) (cw : CacheMon.CacheWorld) (n : nat)
    (p : CacheMon.PastebinMonitor) (W : list Paste) :
  recent env n = inr W ->
  CacheMon.fetchNewPastes env cw n p =
    ((CacheMon.classify cw W []
        (CacheMon.evict (CacheMon.expired cw) (CacheMon.cache p))).1,
     CacheMon.mkMonitor
       (CacheMon.classify cw W []
          (CacheMon.evict (CacheMon.expired cw) (CacheMon.cache p))).2,
     [EvRecent n]).
Proof.
  intros Hw. unfold CacheMon.fetchNewPastes. rewrite Hw.
  by destruct (CacheMon.classify cw W []
                 (CacheMon.evict (CacheMon.expired cw) (CacheMon.cache p))).
Qed.

Lemma evict_lookup_cases (keys : list string) (c : gmap string (list byte))
    (k : string) :
  CacheMon.evict keys c !! k = None \/ CacheMon.evict keys c !! k = c !! k.
Proof.
  induction keys as [|a keys IH]; simpl; [by right|].
  destruct (decide (a = k)) as [->|Hne].
  - left. apply lookup_delete_eq.
  - by rewrite lookup_delete_ne.
Qed.

(** A key whose date is in the cache, in a window that shows the key with
    that date only: no paste with the key is classified new, and the entry
    stays. *)
Lemma classify_known (cw : CacheMon.CacheWorld) (W acc : list Paste)
    (c : gmap string (list byte)) (x : Paste) :
  (forall y, In y W -> Key y = Key x -> Date y = Date x) ->
  c !! Key x = Some (String.list_byte_of_string (Date x)) ->
  (CacheMon.classify cw W acc c).2 !! Key x
    = Some (String.list_byte_of_string (Date x))
  /\ (forall y, In y (CacheMon.classify cw W acc c).1.1 ->
        In y acc \/ Key y <> Key x).
Proof.
  revert acc c. induction W as [|w W IH]; intros acc c HW Hc.
  { simpl. split; [done|]. intros y Hy. by left. }
  assert (HW' : forall y, In y W -> Key y = Key x -> Date y = Date x).
  { intros y Hy. apply HW. by right. }
  assert (Hrec : String.eqb (Key w) (Key x) = false ->
    (CacheMon.classify cw W (acc ++ [w])
       (<[Key w := String.list_byte_of_string (Date w)]> c)).2 !! Key x
      = Some (String.list_byte_of_string (Date x))
    /\ (forall y,
          In y (CacheMon.classify cw W (acc ++ [w])
                  (<[Key w := String.list_byte_of_string (Date w)]> c)).1.1 ->
          In y acc \/ Key y <> Key x)).
  { intros Hne. apply String.eqb_neq in Hne.
    destruct (IH (acc ++ [w])
                (<[Key w := String.list_byte_of_string (Date w)]> c) HW')
      as [H1 H2].
    { by rewrite lookup_insert_ne. }
    split; [done|]. intros y Hy.
    destruct (H2 y Hy) as [Hacc|Hk]; [|by right].
    apply in_app_iff in Hacc as [Hacc|[<-|[]]]; [by left | by right]. }
  simpl. unfold CacheMon.cache_Get, CacheMon.cache_Set.
  destruct (CacheMon.Get_fails cw (Key w)).
  { simpl. split; [done|]. intros y Hy. by left. }
  destruct (String.eqb (Key w) (Key x)) eqn:Hwx.
  - apply String.eqb_eq in Hwx. rewrite Hwx, Hc.
    rewrite String.string_of_list_byte_of_string.
    rewrite (HW w (or_introl eq_refl) Hwx), String.eqb_refl.
    by apply IH.
  - destruct (c !! Key w) as [v|].
    + destruct (String.eqb (String.string_of_list_byte v) (Date w));
        [by apply IH|].
      destruct (CacheMon.Set_fails cw (Key w)); [|by apply Hrec].
      simpl. split; [done|]. intros y Hy. by left.
    + destruct (CacheMon.Set_fails cw (Key w)); [|by apply Hrec].
      simpl. split; [done|]. intros y Hy. by left.
Qed.

(** In every later poll the entry of [x] has not expired and the window shows
    the key of [x] with the date of [x] only. *)
Definition unchanged (x : Paste) (n : nat)
    (envs : list (Remote * CacheMon.CacheWorld)) : Prop :=
  Forall (fun ec =>
            ~ In (Key x) (CacheMon.expired ec.2)
            /\ forall W y, recent ec.1 n = inr W -> In y W ->
                 Key y = Key x -> Date y = Date x) envs.

(** The pastes classified new over a run of polls, up to the first poll that
    fails. *)
Fixpoint poll_seq (envs : list (Remote * CacheMon.CacheWorld)) (n : nat)
    (p : CacheMon.PastebinMonitor) : list Paste :=
  match envs with
  | [] => []
  | (env, cw) :: later =>
      match (CacheMon.fetchNewPastes env cw n p).1.1.2 with
      | Some _ => detected env cw n p
      | None => detected env cw n p ++ poll_seq later n (next env cw n p)
      end
  end.

Lemma poll_seq_known (x : Paste) (n : nat)
    (envs : list (Remote * CacheMon.CacheWorld))
    (q : CacheMon.PastebinMonitor) :
  unchanged x n envs ->
  CacheMon.cache q !! Key x = Some (String.list_byte_of_string (Date x)) ->
  forall y, In y (poll_seq envs n q) -> Key y <> Key x.
Proof.
  intros Hun. revert q.
  induction Hun as [|[env cw] envs [Hexp Hsame] _ IH]; intros q Hq y;
    simpl; [done|].
  simpl in Hexp, Hsame.
  unfold detected, next, CacheMon.fetchNewPastes.
  destruct (recent env n) as [err|W] eqn:Hw; [done|].
  destruct (classify_known cw W []
              (CacheMon.evict (CacheMon.expired cw) (CacheMon.cache q)) x)
    as [Hkeep Hnew].
  { intros z Hz. by apply (Hsame W). }
  { by rewrite evict_lookup. }
  destruct (CacheMon.classify cw W []
              (CacheMon.evict (CacheMon.expired cw) (CacheMon.cache q)))
    as [[new [err|]] c'] eqn:Hcl; simpl in *.
  - intros Hy. destruct (Hnew y Hy) as [[]|Hk]. done.
  - rewrite in_app_iff. intros [Hy|Hy].
    + destruct (Hnew y Hy) as [[]|Hk]. done.
    + by apply (IH (CacheMon.mkMonitor c')).
Qed.

(** C5. Classification by the cache monitor.
    (1) One turn of the loop of [fetchNewPastes], for a key on which the
    cache calls do not fail: a key absent from the cache makes the paste new
    and records key and date; a key present with the same date is skipped and
    the cache is left alone; a key present with another date makes the paste
    new and overwrites the date.
    (2) Two polls in a row on windows with pairwise distinct keys: a paste of
    the second window whose key was in the first window with the same date,
    and whose entry has not expired in between, is not classified new again;
    a paste whose key was in the first window with another date is classified
    new, exactly once, and its new date is in the cache afterwards.
    (3) Any run of polls after a poll that has seen paste [x1]: as long as
    the entry of its key has not expired and the windows show the key with
    the date of [x1] only, no paste with that key is classified new. *)
Theorem cache_classification (cw : CacheMon.CacheWorld) (paste : Paste)
    (rest acc : list Paste) (c : gmap string (list byte))
    (env1 env2 : Remote) (cw1 cw2 : CacheMon.CacheWorld) (n : nat)
    (W1 W2 : list Paste) (p : CacheMon.PastebinMonitor) (x1 x2 : Paste)
    (later : list (Remote * CacheMon.CacheWorld)) :
  (sound cw (Key paste) = true ->
     (c !! Key paste = None ->
      CacheMon.classify cw (paste :: rest) acc c
        = CacheMon.classify cw rest (acc ++ [paste])
            (<[Key paste := String.list_byte_of_string (Date paste)]> c))
     /\ (forall v, c !! Key paste = Some v ->
         String.string_of_list_byte v = Date paste ->
         CacheMon.classify cw (paste :: rest) acc c
           = CacheMon.classify cw rest acc c)
     /\ (forall v, c !! Key paste = Some v ->
         String.string_of_list_byte v <> Date paste ->
         CacheMon.classify cw (paste :: rest) acc c
           = CacheMon.classify cw rest (acc ++ [paste])
               (<[Key paste := String.list_byte_of_string (Date paste)]> c)))
  /\ (recent env1 n = inr W1 ->
      recent env2 n = inr W2 ->
      NoDup (map Key W1) ->
      NoDup (map Key W2) ->
      forallb (fun pp => sound cw1 (Key pp)) W1 = true ->
      forallb (fun pp => sound cw2 (Key pp)) W2 = true ->
      In x1 W1 ->
      In x2 W2 ->
      Key x1 = Key x2 ->
      (Date x1 = Date x2 ->
       ~ In (Key x2) (CacheMon.expired cw2) ->
       ~ In x2 (detected env2 cw2 n (next env1 cw1 n p)))
      /\ (Date x1 <> Date x2 ->
          In x2 (detected env2 cw2 n (next env1 cw1 n p))
          /\ NoDup (detected env2 cw2 n (next env1 cw1 n p))
          /\ CacheMon.cache (next env2 cw2 n (next env1 cw1 n p)) !! Key x2
             = Some (String.list_byte_of_string (Date x2))))
  /\ (recent env1 n = inr W1 ->
      NoDup (map Key W1) ->
      forallb (fun pp => sound cw1 (Key pp)) W1 = true ->
      In x1 W1 ->
      unchanged x1 n later ->
      forall y, In y (poll_seq later n (next env1 cw1 n p)) ->
        Key y <> Key x1).
Proof.
  split; [|split]; cycle 2.
  { intros Hw1 Hnd1 Hs1 Hin1 Hun. apply poll_seq_known; [done|].
    unfold next. rewrite (fetch_classify env1 cw1 n p W1 Hw1). simpl.
    by apply classify_lookup_in. }
  - intros Hs. rewrite (classify_step _ _ _ _ _ Hs). unfold is_new, record.
    split; [by intros ->|]. split; intros v -> Hv.
    + apply String.eqb_eq in Hv. by rewrite Hv.
    + apply String.eqb_neq in Hv. by rewrite Hv.
  - intros Hw1 Hw2 Hnd1 Hnd2 Hs1 Hs2 Hin1 Hin2 Hkey.
    unfold detected, next.
    rewrite (fetch_classify env1 cw1 n p W1 Hw1). simpl snd.
    rewrite (fetch_classify env2 cw2 n _ W2 Hw2). simpl fst. simpl snd.
    simpl CacheMon.cache.
    set (c1 := (CacheMon.classify cw1 W1 []
                  (CacheMon.evict (CacheMon.expired cw1) (CacheMon.cache p))).2).
    assert (Hc1 : c1 !! Key x2 = Some (String.list_byte_of_string (Date x1))).
    { rewrite <- Hkey. by apply classify_lookup_in. }
    set (c2 := CacheMon.evict (CacheMon.expired cw2) c1).
    rewrite (classify_filter cw2 W2 [] c2 Hs2 Hnd2). simpl app.
    split.
    + intros Hd Hexp [_ Hnew]%filter_In.
      unfold is_new, c2 in Hnew. rewrite (evict_lookup _ _ _ Hexp), Hc1 in Hnew.
      rewrite String.string_of_list_byte_of_string, Hd in Hnew.
      by rewrite String.eqb_refl in Hnew.
    + intros Hd. split; [|split].
      * apply filter_In. split; [done|]. unfold is_new, c2.
        destruct (evict_lookup_cases (CacheMon.expired cw2) c1 (Key x2))
          as [-> | ->]; [done|].
        rewrite Hc1, String.string_of_list_byte_of_string.
        apply String.eqb_neq in Hd. by rewrite Hd.
      * apply NoDup_ListNoDup, List.NoDup_filter, NoDup_ListNoDup.
        by apply (NoDup_fmap_1 Key).
      * by apply classify_lookup_in.
Qed.

(** A cache whose calls succeed and in which nothing has expired. *)
Definition calm : CacheMon.CacheWorld :=
  CacheMon.mkCacheWorld [] (fun _ => None) (fun _ => None).

(** Paste c published again, with a later date. *)
Definition paste_c_again : Paste := mkPaste "c" "third" "cat" "text" "4" "/c".

Lemma cache_classification_witness :
  ~ In paste_b
      (detected (serving [paste_c_again; paste_b]) calm 50
         (next (serving window_cba) calm 50 (CacheMon.mkMonitor ∅)))
  /\ In paste_c_again
       (detected (serving [paste_c_again; paste_b]) calm 50
          (next (serving window_cba) calm 50 (CacheMon.mkMonitor ∅))).
Proof.
  assert (Hnd1 : NoDup (map Key window_cba)).
  { by apply (bool_decide_unpack (NoDup (map Key window_cba))). }
  assert (Hnd2 : NoDup (map Key [paste_c_again; paste_b])).
  { by apply (bool_decide_unpack (NoDup (map Key [paste_c_again; paste_b]))). }
  assert (Hb1 : In paste_b window_cba) by (simpl; tauto).
  assert (Hb2 : In paste_b [paste_c_again; paste_b]) by (simpl; tauto).
  assert (Hc1 : In paste_c window_cba) by (simpl; tauto).
  assert (Hc2 : In paste_c_again [paste_c_again; paste_b]) by (simpl; tauto).
  split.
  - refine (proj1 (proj1 (proj2 (cache_classification calm paste_a [] [] ∅
              (serving window_cba) (serving [paste_c_again; paste_b])
              calm calm 50 window_cba [paste_c_again; paste_b]
              (CacheMon.mkMonitor ∅) paste_b paste_b []))
              eq_refl eq_refl Hnd1 Hnd2 eq_refl eq_refl Hb1 Hb2 eq_refl)
              eq_refl _).
    simpl. tauto.
  - refine (proj1 (proj2 (proj1 (proj2 (cache_classification calm paste_a [] [] ∅
              (serving window_cba) (serving [paste_c_again; paste_b])
              calm calm 50 window_cba [paste_c_again; paste_b]
              (CacheMon.mkMonitor ∅) paste_c paste_c_again []))
              eq_refl eq_refl Hnd1 Hnd2 eq_refl eq_refl Hc1 Hc2 eq_refl) _)).
    discriminate.
Defined.

(** ** What the callback can be handed *)

Lemma mem_fetch_log (env : Remote) (n : nat) (p : MemCursor.PastebinMonitor) :
  (MemCursor.fetchNewPastes env n p).2 = [EvRecent n].
Proof.
  unfold MemCursor.fetchNewPastes.
  destruct (recent env n) as [err|[|top rest]]; [done..|].
  by destruct (String.eqb (MemCursor.topKey p) "").
Qed.

Lemma cache_fetch_log (env : Remote) (cw : CacheMon.CacheWorld) (n : nat)
    (p : CacheMon.PastebinMonitor) :
  (CacheMon.fetchNewPastes env cw n p).2 = [EvRecent n].
Proof.
  unfold CacheMon.fetchNewPastes.
  destruct (recent env n) as [err|W]; [done|].
  by destruct (CacheMon.classify cw W []
                 (CacheMon.evict (CacheMon.expired cw) (CacheMon.cache p))).
Qed.

Lemma processPaste_delivered (env : Remote) (pp y : Paste) :
  In y (delivered (processPaste env pp).2) -> y = pp.
Proof.
  unfold processPaste.
  destruct (GetRaw env (Key pp)); simpl; [done|]. by intros [->|[]].
Qed.

(** Only pastes given to the loop reach the callback. *)
Lemma cache_dispatch_delivered (env : Remote) (l : list Paste) (y : Paste) :
  In y (delivered (CacheMon.dispatch env l).2) -> In y l.
Proof.
  induction l as [|pp l IH]; simpl; [done|].
  pose proof (processPaste_delivered env pp y) as Hp.
  destruct (processPaste env pp) as [[err|] evs]; simpl in *.
  - intros H. left. symmetry. by apply Hp.
  - destruct (CacheMon.dispatch env l) as [r evs']. simpl in *.
    rewrite delivered_app, in_app_iff. intros [H|H].
    + left. symmetry. by apply Hp.
    + right. by apply IH.
Qed.

Lemma cache_ticks_known (x : Paste) (n : nat)
    (envs : list (Remote * CacheMon.CacheWorld))
    (q : CacheMon.PastebinMonitor) :
  unchanged x n envs ->
  CacheMon.cache q !! Key x = Some (String.list_byte_of_string (Date x)) ->
  forall y, In y (delivered (CacheMon.ticks envs n q).2) -> Key y <> Key x.
Proof.
  intros Hun. revert q.
  induction Hun as [|[env cw] envs [Hexp Hsame] _ IH]; intros q Hq y;
    simpl; [done|].
  simpl in Hexp, Hsame.
  unfold CacheMon.tick, CacheMon.fetchNewPastes.
  destruct (recent env n) as [err|W] eqn:Hw; [done|].
  destruct (classify_known cw W []
              (CacheMon.evict (CacheMon.expired cw) (CacheMon.cache q)) x)
    as [Hkeep Hnew].
  { intros z Hz. by apply (Hsame W). }
  { by rewrite evict_lookup. }
  destruct (CacheMon.classify cw W []
              (CacheMon.evict (CacheMon.expired cw) (CacheMon.cache q)))
    as [[new [err|]] c'] eqn:Hcl; simpl in *; [done|].
  pose proof (cache_dispatch_delivered env new y) as Hsub.
  destruct (CacheMon.dispatch env new) as [[err|] evs]; simpl in *.
  - intros Hy. destruct (Hnew y (Hsub Hy)) as [[]|Hk]. done.
  - specialize (IH (CacheMon.mkMonitor c') Hkeep y).
    destruct (CacheMon.ticks envs n (CacheMon.mkMonitor c'))
      as [[r p''] evs']. simpl in *.
    rewrite delivered_app, in_app_iff. intros [Hy|Hy]; [|by apply IH].
    destruct (Hnew y (Hsub Hy)) as [[]|Hk]. done.
Qed.

(** ** The call before the first tick *)

(** C9. The pastes of the first call are dropped.  In the in-memory cursor
    monitor and in the cache monitor, whatever the call of [fetchNewPastes]
    that [Do] makes before it starts the ticker returns, the callback is not
    called for it: what [Do] hands to the callback is what its ticks hand
    over, and nothing before the first tick.  In the cache monitor a paste
    returned by that first call has its date in the cache, and no paste with
    its key reaches the callback in any later poll as long as the entry has
    not expired and the windows show the key with the same date. *)
Theorem initial_call_discards (first : Remote) (later : list Remote)
    (cfirst : Remote * CacheMon.CacheWorld)
    (clater : list (Remote * CacheMon.CacheWorld)) (n : nat)
    (p : MemCursor.PastebinMonitor) (q : CacheMon.PastebinMonitor)
    (W : list Paste) (x : Paste) :
  delivered (MemCursor.Do first [] n p).2 = []
  /\ delivered (MemCursor.Do first later n p).2
     = match (MemCursor.fetchNewPastes first n p).1.1.2 with
       | Some _ => []
       | None =>
           delivered
             (MemCursor.ticks later n
                (MemCursor.fetchNewPastes first n p).1.2).2
       end
  /\ delivered (CacheMon.Do cfirst [] n q).2 = []
  /\ delivered (CacheMon.Do cfirst clater n q).2
     = match (CacheMon.fetchNewPastes cfirst.1 cfirst.2 n q).1.1.2 with
       | Some _ => []
       | None =>
           delivered
             (CacheMon.ticks clater n (next cfirst.1 cfirst.2 n q)).2
       end
  /\ (recent cfirst.1 n = inr W ->
      NoDup (map Key W) ->
      forallb (fun pp => sound cfirst.2 (Key pp)) W = true ->
      In x (detected cfirst.1 cfirst.2 n q) ->
      CacheMon.cache (next cfirst.1 cfirst.2 n q) !! Key x
        = Some (String.list_byte_of_string (Date x))
      /\ (unchanged x n clater ->
          forall y, In y (delivered (CacheMon.Do cfirst clater n q).2) ->
            Key y <> Key x)).
Proof.
  assert (Hmem : forall l, delivered (MemCursor.Do first l n p).2
     = match (MemCursor.fetchNewPastes first n p).1.1.2 with
       | Some _ => []
       | None =>
           delivered
             (MemCursor.ticks l n (MemCursor.fetchNewPastes first n p).1.2).2
       end).
  { intros l. unfold MemCursor.Do.
    pose proof (mem_fetch_log first n p) as Hlog.
    destruct (MemCursor.fetchNewPastes first n p) as [[[items [err|]] p'] evs];
      simpl in *; subst evs; [done|].
    by destruct (MemCursor.ticks l n p') as [[r p''] evs']. }
  assert (Hcache : forall l, delivered (CacheMon.Do cfirst l n q).2
     = match (CacheMon.fetchNewPastes cfirst.1 cfirst.2 n q).1.1.2 with
       | Some _ => []
       | None =>
           delivered (CacheMon.ticks l n (next cfirst.1 cfirst.2 n q)).2
       end).
  { intros l. unfold CacheMon.Do, next.
    pose proof (cache_fetch_log cfirst.1 cfirst.2 n q) as Hlog.
    destruct (CacheMon.fetchNewPastes cfirst.1 cfirst.2 n q)
      as [[[items [err|]] p'] evs]; simpl in *; subst evs; [done|].
    by destruct (CacheMon.ticks l n p') as [[r p''] evs']. }
  split. { rewrite Hmem. by destruct ((MemCursor.fetchNewPastes first n p).1.1.2). }
  split; [apply Hmem|].
  split.
  { rewrite Hcache.
    by destruct ((CacheMon.fetchNewPastes cfirst.1 cfirst.2 n q).1.1.2). }
  split; [apply Hcache|].
  intros Hw Hnd Hs Hin.
  assert (HinW : In x W).
  { revert Hin. unfold detected. rewrite (fetch_classify _ _ _ _ _ Hw).
    simpl. rewrite (classify_filter _ _ [] _ Hs Hnd). simpl.
    by intros [? _]%filter_In. }
  assert (Hc : CacheMon.cache (next cfirst.1 cfirst.2 n q) !! Key x
               = Some (String.list_byte_of_string (Date x))).
  { unfold next. rewrite (fetch_classify _ _ _ _ _ Hw). simpl.
    by apply classify_lookup_in. }
  split; [exact Hc|].
  intros Hun y. rewrite Hcache.
  destruct ((CacheMon.fetchNewPastes cfirst.1 cfirst.2 n q).1.1.2); [done|].
  by apply cache_ticks_known.
Qed.

Lemma initial_call_discards_witness :
  (MemCursor.fetchNewPastes (serving window_cba) 50
     (MemCursor.mkMonitor "a")).1.1.1 = [paste_c; paste_b]
  /\ delivered (MemCursor.Do (serving window_cba) [] 50
                  (MemCursor.mkMonitor "a")).2 = []
  /\ ~ In paste_c
         (delivered
            (CacheMon.Do (serving window_cba, calm)
               [(serving window_cba, calm); (serving window_cba, calm)] 50
               (CacheMon.mkMonitor ∅)).2).
Proof.
  assert (Hnd : NoDup (map Key window_cba)).
  { by apply (bool_decide_unpack (NoDup (map Key window_cba))). }
  assert (Hsame : forall (W : list Paste) (y : Paste),
            recent (serving window_cba) 50 = inr W -> In y W ->
            Key y = Key paste_c -> Date y = Date paste_c).
  { intros W y [= <-] [<-|[<-|[<-|[]]]]; [done | discriminate..]. }
  assert (Hun : unchanged paste_c 50
                  [(serving window_cba, calm); (serving window_cba, calm)]).
  { repeat constructor; simpl; try tauto; exact Hsame. }
  destruct (initial_call_discards (serving window_cba) []
              (serving window_cba, calm)
              [(serving window_cba, calm); (serving window_cba, calm)] 50
              (MemCursor.mkMonitor "a") (CacheMon.mkMonitor ∅)
              window_cba paste_c) as (H1 & _ & _ & _ & H2).
  split; [reflexivity|]. split; [exact H1|].
  assert (Hdet : In paste_c
            (detected (serving window_cba, calm).1 (serving window_cba, calm).2
               50 (CacheMon.mkMonitor ∅))).
  { vm_compute. tauto. }
  destruct (H2 eq_refl Hnd eq_refl Hdet) as [_ H3].
  intros Hin. by apply (H3 Hun paste_c Hin).
Defined.

(** ** A step that fails *)

Lemma mem_dispatch_stop (env : Remote) (l1 l2 : list Paste) (x : Paste)
    (err : error) (evx : list event) :
  forallb (accepted env) l1 = true ->
  processPaste env x = (Some err, evx) ->
  MemCursor.dispatch env (l1 ++ x :: l2)
    = (Some err, flat_map handed l1 ++ evx).
Proof.
  intros Ha Hx. induction l1 as [|y l1 IH]; simpl in *.
  - by rewrite Hx.
  - apply andb_prop in Ha as [Hy Ha].
    by rewrite (processPaste_accepted _ _ Hy), (IH Ha).
Qed.

Lemma cache_dispatch_stop (env : Remote) (l1 l2 : list Paste) (x : Paste)
    (err : error) (evx : list event) :
  forallb (accepted env) l1 = true ->
  processPaste env x = (Some err, evx) ->
  CacheMon.dispatch env (l1 ++ x :: l2)
    = (Some err, flat_map handed l1 ++ evx).
Proof.
  intros Ha Hx. induction l1 as [|y l1 IH]; simpl in *.
  - by rewrite Hx.
  - apply andb_prop in Ha as [Hy Ha].
    by rewrite (processPaste_accepted _ _ Hy), (IH Ha).
Qed.

Lemma cache_dispatch_all (env : Remote) (l : list Paste) :
  forallb (accepted env) l = true ->
  CacheMon.dispatch env l = (None, flat_map handed l).
Proof.
  induction l as [|x l IH]; simpl; [done|].
  intros [Hx Hl]%andb_prop.
  rewrite (processPaste_accepted _ _ Hx), (IH Hl). done.
Qed.

(** The loop of [do] stops at a paste whose dispatch fails ... *)
Lemma run_stop_dispatch (env : Remote) (fs : FileCursor.Disk)
    (l1 l2 : list Paste) (x : Paste) (p : FileCursor.PastebinMonitor)
    (err : error) (evx : list event) :
  forallb (accepted env) l1 = true ->
  forallb (fun pp => saves fs (Key pp)) l1 = true ->
  processPaste env x = (Some err, evx) ->
  run env fs (l1 ++ x :: l2) p
    = (Some (Errorf_w "process paste: " err), after p l1,
       flat_map handed l1 ++ evx).
Proof.
  revert p. induction l1 as [|y l1 IH]; intros p Ha Hs Hx; simpl in *.
  - by rewrite Hx.
  - apply andb_prop in Ha as [Hy Ha]. apply andb_prop in Hs as [Hsy Hs].
    rewrite (processPaste_accepted _ _ Hy), (persist_saves _ _ _ Hsy).
    by rewrite (IH _ Ha Hs Hx), after_cons.
Qed.

(** ... and at a key that cannot be saved. *)
Lemma run_stop_persist (env : Remote) (fs : FileCursor.Disk)
    (l1 l2 : list Paste) (x : Paste) (p p' : FileCursor.PastebinMonitor)
    (err : error) :
  forallb (accepted env) l1 = true ->
  forallb (fun pp => saves fs (Key pp)) l1 = true ->
  accepted env x = true ->
  FileCursor.persist fs (Key x) (after p l1) = (Some err, p') ->
  run env fs (l1 ++ x :: l2) p
    = (Some err, p', flat_map handed l1 ++ handed x).
Proof.
  revert p. induction l1 as [|y l1 IH]; intros p Ha Hs Hx Hp; simpl in *.
  - rewrite (processPaste_accepted _ _ Hx). unfold after in Hp. simpl in Hp.
    by rewrite Hp.
  - apply andb_prop in Ha as [Hy Ha]. apply andb_prop in Hs as [Hsy Hs].
    rewrite (processPaste_accepted _ _ Hy), (persist_saves _ _ _ Hsy).
    rewrite <- after_cons in Hp. by rewrite (IH _ Ha Hs Hx Hp).
Qed.

Lemma mem_ticks_stop (pre post : list Remote) (env : Remote) (n : nat)
    (p p1 p2 : MemCursor.PastebinMonitor) (evs1 evs2 : list event)
    (err : error) :
  MemCursor.ticks pre n p = (None, p1, evs1) ->
  MemCursor.tick env n p1 = (Some err, p2, evs2) ->
  MemCursor.ticks (pre ++ env :: post) n p = (Some err, p2, evs1 ++ evs2).
Proof.
  revert p evs1. induction pre as [|e pre IH]; intros p evs1; simpl.
  - intros [= -> <-] ->. done.
  - destruct (MemCursor.tick e n p) as [[[err'|] q] ev]; [done|].
    destruct (MemCursor.ticks pre n q) as [[r q'] ev'] eqn:Hpre.
    intros [= -> -> <-] Ht. rewrite (IH _ _ Hpre Ht). by rewrite app_assoc.
Qed.

Lemma file_ticks_stop (pre post : list (Remote * FileCursor.Disk))
    (env : Remote) (fs : FileCursor.Disk) (n : nat)
    (p p1 p2 : FileCursor.PastebinMonitor) (evs1 evs2 : list event)
    (err : error) :
  FileCursor.ticks pre n p = (None, p1, evs1) ->
  FileCursor.do env fs n p1 = (Some err, p2, evs2) ->
  FileCursor.ticks (pre ++ (env, fs) :: post) n p
    = (Some err, p2, evs1 ++ evs2).
Proof.
  revert p evs1. induction pre as [|[e d] pre IH]; intros p evs1; simpl.
  - intros [= -> <-] ->. done.
  - destruct (FileCursor.do e d n p) as [[[err'|] q] ev]; [done|].
    destruct (FileCursor.ticks pre n q) as [[r q'] ev'] eqn:Hpre.
    intros [= -> -> <-] Ht. rewrite (IH _ _ Hpre Ht). by rewrite app_assoc.
Qed.

Lemma cache_ticks_stop (pre post : list (Remote * CacheMon.CacheWorld))
    (env : Remote) (cw : CacheMon.CacheWorld) (n : nat)
    (p p1 p2 : CacheMon.PastebinMonitor) (evs1 evs2 : list event)
    (err : error) :
  CacheMon.ticks pre n p = (None, p1, evs1) ->
  CacheMon.tick env cw n p1 = (Some err, p2, evs2) ->
  CacheMon.ticks (pre ++ (env, cw) :: post) n p
    = (Some err, p2, evs1 ++ evs2).
Proof.
  revert p evs1. induction pre as [|[e d] pre IH]; intros p evs1; simpl.
  - intros [= -> <-] ->. done.
  - destruct (CacheMon.tick e d n p) as [[[err'|] q] ev]; [done|].
    destruct (CacheMon.ticks pre n q) as [[r q'] ev'] eqn:Hpre.
    intros [= -> -> <-] Ht. rewrite (IH _ _ Hpre Ht). by rewrite app_assoc.
Qed.

Lemma mem_Do_stop (first : Remote) (pre post : list Remote) (env : Remote)
    (n : nat) (p p1 p2 : MemCursor.PastebinMonitor) (evs1 evs2 : list event)
    (err : error) :
  MemCursor.Do first pre n p = (None, p1, evs1) ->
  MemCursor.tick env n p1 = (Some err, p2, evs2) ->
  MemCursor.Do first (pre ++ env :: post) n p = (Some err, p2, evs1 ++ evs2).
Proof.
  unfold MemCursor.Do.
  destruct (MemCursor.fetchNewPastes first n p) as [[[items [e|]] p0] ev0];
    [done|].
  destruct (MemCursor.ticks pre n p0) as [[r q] ev] eqn:Hpre.
  intros [= -> -> <-] Ht.
  rewrite (mem_ticks_stop _ post _ _ _ _ _ _ _ _ Hpre Ht). by rewrite app_assoc.
Qed.

Lemma cache_Do_stop (first : Remote * CacheMon.CacheWorld)
    (pre post : list (Remote * CacheMon.CacheWorld)) (env : Remote)
    (cw : CacheMon.CacheWorld) (n : nat)
    (p p1 p2 : CacheMon.PastebinMonitor) (evs1 evs2 : list event)
    (err : error) :
  CacheMon.Do first pre n p = (None, p1, evs1) ->
  CacheMon.tick env cw n p1 = (Some err, p2, evs2) ->
  CacheMon.Do first (pre ++ (env, cw) :: post) n p
    = (Some err, p2, evs1 ++ evs2).
Proof.
  unfold CacheMon.Do.
  destruct (CacheMon.fetchNewPastes first.1 first.2 n p)
    as [[[items [e|]] p0] ev0]; [done|].
  destruct (CacheMon.ticks pre n p0) as [[r q] ev] eqn:Hpre.
  intros [= -> -> <-] Ht.
  rewrite (cache_ticks_stop _ post _ _ _ _ _ _ _ _ _ Hpre Ht).
  by rewrite app_assoc.
Qed.

Lemma rev_split (newer older : list Paste) (x : Paste) :
  rev (newer ++ x :: older) = rev older ++ x :: rev newer.
Proof. rewrite rev_app_distr. simpl. by rewrite <- app_assoc. Qed.

(** [do] when the dispatch of paste [x] fails: the pastes [older] than [x]
    were handed over and saved, the pastes [newer] than [x] are not touched. *)
Lemma do_stop_dispatch (env : Remote) (fs : FileCursor.Disk) (n : nat)
    (p p' : FileCursor.PastebinMonitor) (newer older : list Paste)
    (x : Paste) (evs0 evx : list event) (err : error) :
  FileCursor.fetchNewPastes env n p = ((newer ++ x :: older, None), p', evs0) ->
  forallb (accepted env) older = true ->
  forallb (fun pp => saves fs (Key pp)) older = true ->
  processPaste env x = (Some err, evx) ->
  FileCursor.do env fs n p
    = (Some (Errorf_w "process paste: " err), after p' (rev older),
       evs0 ++ flat_map handed (rev older) ++ evx).
Proof.
  intros Hf Ha Hs Hx. unfold FileCursor.do. rewrite Hf.
  rewrite do_loop_run by done. rewrite firstn_all, rev_split.
  rewrite (run_stop_dispatch env fs (rev older) (rev newer) x p' err evx);
    [done | by apply forallb_rev | by apply forallb_rev | done].
Qed.

Lemma do_stop_persist (env : Remote) (fs : FileCursor.Disk) (n : nat)
    (p p' p'' : FileCursor.PastebinMonitor) (newer older : list Paste)
    (x : Paste) (evs0 : list event) (err : error) :
  FileCursor.fetchNewPastes env n p = ((newer ++ x :: older, None), p', evs0) ->
  forallb (accepted env) older = true ->
  forallb (fun pp => saves fs (Key pp)) older = true ->
  accepted env x = true ->
  FileCursor.persist fs (Key x) (after p' (rev older)) = (Some err, p'') ->
  FileCursor.do env fs n p
    = (Some err, p'', evs0 ++ flat_map handed (rev older) ++ handed x).
Proof.
  intros Hf Ha Hs Hx Hp. unfold FileCursor.do. rewrite Hf.
  rewrite do_loop_run by done. rewrite firstn_all, rev_split.
  rewrite (run_stop_persist env fs (rev older) (rev newer) x p' p'' err);
    [done | by apply forallb_rev | by apply forallb_rev | done | done].
Qed.

Lemma mem_tick_stop (env : Remote) (n : nat)
    (p p' : MemCursor.PastebinMonitor) (l1 l2 : list Paste) (x : Paste)
    (evs0 evx : list event) (err : error) :
  MemCursor.fetchNewPastes env n p = ((l1 ++ x :: l2, None), p', evs0) ->
  forallb (accepted env) l1 = true ->
  processPaste env x = (Some err, evx) ->
  MemCursor.tick env n p = (Some err, p', evs0 ++ flat_map handed l1 ++ evx).
Proof.
  intros Hf Ha Hx. unfold MemCursor.tick. rewrite Hf.
  by rewrite (mem_dispatch_stop _ _ _ _ _ _ Ha Hx).
Qed.

Lemma cache_tick_stop (env : Remote) (cw : CacheMon.CacheWorld) (n : nat)
    (p p' : CacheMon.PastebinMonitor) (l1 l2 : list Paste) (x : Paste)
    (evs0 evx : list event) (err : error) :
  CacheMon.fetchNewPastes env cw n p = ((l1 ++ x :: l2, None), p', evs0) ->
  forallb (accepted env) l1 = true ->
  processPaste env x = (Some err, evx) ->
  CacheMon.tick env cw n p
    = (Some err, p', evs0 ++ flat_map handed l1 ++ evx).
Proof.
  intros Hf Ha Hx. unfold CacheMon.tick. rewrite Hf.
  by rewrite (cache_dispatch_stop _ _ _ _ _ _ Ha Hx).
Qed.

Lemma cache_tick_all (env : Remote) (cw : CacheMon.CacheWorld) (n : nat)
    (p p' : CacheMon.PastebinMonitor) (pastes : list Paste)
    (evs : list event) :
  CacheMon.fetchNewPastes env cw n p = ((pastes, None), p', evs) ->
  forallb (accepted env) pastes = true ->
  CacheMon.tick env cw n p = (None, p', evs ++ flat_map handed pastes).
Proof.
  intros Hf Ha. unfold CacheMon.tick. rewrite Hf.
  by rewrite cache_dispatch_all.
Qed.

(** ** Fail loud *)

(** C8. Every error ends the poll loop.
    (1) [Do] of each monitor returns the error of the first cycle that fails,
    with the monitor and the log of that moment; the polls that would follow
    are not made.
    (2) A cycle fails with the error of [fetchNewPastes] when that call fails
    (nothing is dispatched), and with the error of the first paste whose
    dispatch or save fails: the pastes before it were handed over once each,
    the failing paste was tried once, and the pastes after it are not
    touched.
    (3) The errors of the steps: a failing [recent], a failing cache call, a
    failing [GetRaw], a failing callback and a failing file operation each
    make their step return an error whose innermost cause is that error. *)
Theorem fail_loud :
  (forall first pre post env n p p1 p2 evs1 evs2 err,
     MemCursor.Do first pre n p = (None, p1, evs1) ->
     MemCursor.tick env n p1 = (Some err, p2, evs2) ->
     MemCursor.Do first (pre ++ env :: post) n p
       = (Some err, p2, evs1 ++ evs2))
  /\ (forall first later n p err,
        (MemCursor.fetchNewPastes first n p).1.1.2 = Some err ->
        MemCursor.Do first later n p
          = (Some err, (MemCursor.fetchNewPastes first n p).1.2,
             [EvRecent n]))
  /\ (forall first pre post env fs n p p1 p2 evs1 evs2 err,
        FileCursor.Do first pre n p = (None, p1, evs1) ->
        FileCursor.do env fs n p1 = (Some err, p2, evs2) ->
        FileCursor.Do first (pre ++ (env, fs) :: post) n p
          = (Some err, p2, evs1 ++ evs2))
  /\ (forall first later n p p2 evs err,
        FileCursor.do first.1 first.2 n p = (Some err, p2, evs) ->
        FileCursor.Do first later n p = (Some err, p2, evs))
  /\ (forall first pre post env cw n p p1 p2 evs1 evs2 err,
        CacheMon.Do first pre n p = (None, p1, evs1) ->
        CacheMon.tick env cw n p1 = (Some err, p2, evs2) ->
        CacheMon.Do first (pre ++ (env, cw) :: post) n p
          = (Some err, p2, evs1 ++ evs2))
  /\ (forall first later n p err,
        (CacheMon.fetchNewPastes first.1 first.2 n p).1.1.2 = Some err ->
        CacheMon.Do first later n p
          = (Some err, (CacheMon.fetchNewPastes first.1 first.2 n p).1.2,
             [EvRecent n]))
  /\ (forall env n p err,
        (MemCursor.fetchNewPastes env n p).1.1.2 = Some err ->
        MemCursor.tick env n p
          = (Some err, (MemCursor.fetchNewPastes env n p).1.2, [EvRecent n]))
  /\ (forall env n p p' l1 x l2 evs0 evx err,
        MemCursor.fetchNewPastes env n p = ((l1 ++ x :: l2, None), p', evs0) ->
        forallb (accepted env) l1 = true ->
        processPaste env x = (Some err, evx) ->
        MemCursor.tick env n p
          = (Some err, p', evs0 ++ flat_map handed l1 ++ evx))
  /\ (forall env cw n p err,
        (CacheMon.fetchNewPastes env cw n p).1.1.2 = Some err ->
        CacheMon.tick env cw n p
          = (Some err, (CacheMon.fetchNewPastes env cw n p).1.2,
             [EvRecent n]))
  /\ (forall env cw n p p' l1 x l2 evs0 evx err,
        CacheMon.fetchNewPastes env cw n p
          = ((l1 ++ x :: l2, None), p', evs0) ->
        forallb (accepted env) l1 = true ->
        processPaste env x = (Some err, evx) ->
        CacheMon.tick env cw n p
          = (Some err, p', evs0 ++ flat_map handed l1 ++ evx))
  /\ (forall env fs n p err,
        (FileCursor.fetchNewPastes env n p).1.1.2 = Some err ->
        FileCursor.do env fs n p
          = (Some (Errorf_w "fetch pastes: " err),
             (FileCursor.fetchNewPastes env n p).1.2, [EvRecent n]))
  /\ (forall env fs n p p' newer x older evs0 evx err,
        FileCursor.fetchNewPastes env n p
          = ((newer ++ x :: older, None), p', evs0) ->
        forallb (accepted env) older = true ->
        forallb (fun pp => saves fs (Key pp)) older = true ->
        processPaste env x = (Some err, evx) ->
        FileCursor.do env fs n p
          = (Some (Errorf_w "process paste: " err), after p' (rev older),
             evs0 ++ flat_map handed (rev older) ++ evx))
  /\ (forall env fs n p p' p'' newer x older evs0 err,
        FileCursor.fetchNewPastes env n p
          = ((newer ++ x :: older, None), p', evs0) ->
        forallb (accepted env) older = true ->
        forallb (fun pp => saves fs (Key pp)) older = true ->
        accepted env x = true ->
        FileCursor.persist fs (Key x) (after p' (rev older))
          = (Some err, p'') ->
        FileCursor.do env fs n p
          = (Some err, p'', evs0 ++ flat_map handed (rev older) ++ handed x))
  /\ (forall env n e p q c cw,
        recent env n = inl e ->
        (MemCursor.fetchNewPastes env n p).1.1.2 = Some e
        /\ (FileCursor.fetchNewPastes env n q).1.1.2
           = Some (Errorf_w "recent pastes: " e)
        /\ (CacheMon.fetchNewPastes env cw n c).1.1.2 = Some e)
  /\ (forall cw x rest acc c e,
        CacheMon.Get_fails cw (Key x) = Some e ->
        CacheMon.classify cw (x :: rest) acc c = ((acc, Some e), c))
  /\ (forall cw x rest acc c e,
        CacheMon.Get_fails cw (Key x) = None ->
        is_new c x = true ->
        CacheMon.Set_fails cw (Key x) = Some e ->
        CacheMon.classify cw (x :: rest) acc c = ((acc, Some e), c))
  /\ (forall env x e,
        GetRaw env (Key x) = inl e ->
        processPaste env x
          = (Some (Errorf_w "pastebin.GetRaw: " e), [EvGetRaw (Key x)]))
  /\ (forall env x body e,
        GetRaw env (Key x) = inr body ->
        OnNew env x body = Some e ->
        processPaste env x = (Some e, handed x))
  /\ (forall fs k p,
        match FileCursor.Truncate_fails fs k, FileCursor.Seek_fails fs k,
              FileCursor.WriteString_fails fs k with
        | Some e, _, _ | None, Some e, _ | None, None, Some e =>
            exists e', (FileCursor.persist fs k p).1 = Some e'
                       /\ root_cause e' = root_cause e
        | None, None, None => (FileCursor.persist fs k p).1 = None
        end).
Proof.
  split; [intros; by eapply mem_Do_stop|].
  split.
  { intros first later n p err. unfold MemCursor.Do.
    pose proof (mem_fetch_log first n p) as Hlog.
    destruct (MemCursor.fetchNewPastes first n p) as [[[items e] p'] evs].
    simpl in *. by intros ->; subst evs. }
  split.
  { intros first pre post env fs n p p1 p2 evs1 evs2 err H1 H2.
    unfold FileCursor.Do in *.
    by apply (file_ticks_stop (first :: pre) post env fs n p p1 p2). }
  split.
  { intros [env fs] later n p p2 evs err. unfold FileCursor.Do. simpl.
    by intros ->. }
  split; [intros; by eapply cache_Do_stop|].
  split.
  { intros first later n p err. unfold CacheMon.Do.
    pose proof (cache_fetch_log first.1 first.2 n p) as Hlog.
    destruct (CacheMon.fetchNewPastes first.1 first.2 n p)
      as [[[items e] p'] evs].
    simpl in *. by intros ->; subst evs. }
  split.
  { intros env n p err. unfold MemCursor.tick.
    pose proof (mem_fetch_log env n p) as Hlog.
    destruct (MemCursor.fetchNewPastes env n p) as [[[items e] p'] evs].
    simpl in *. by intros ->; subst evs. }
  split; [intros; by eapply mem_tick_stop|].
  split.
  { intros env cw n p err. unfold CacheMon.tick.
    pose proof (cache_fetch_log env cw n p) as Hlog.
    destruct (CacheMon.fetchNewPastes env cw n p) as [[[items e] p'] evs].
    simpl in *. by intros ->; subst evs. }
  split; [intros; by eapply cache_tick_stop|].
  split.
  { intros env fs n p err. unfold FileCursor.do.
    assert (Hlog : (FileCursor.fetchNewPastes env n p).2 = [EvRecent n]).
    { unfold FileCursor.fetchNewPastes.
      destruct (recent env n) as [e|[|top rest]]; [done..|].
      by destruct (String.eqb (FileCursor.topKey p) ""). }
    destruct (FileCursor.fetchNewPastes env n p) as [[[items e] p'] evs].
    simpl in *. by intros ->; subst evs. }
  split; [intros; by eapply do_stop_dispatch|].
  split; [intros; by eapply do_stop_persist|].
  split.
  { intros env n e p q c cw Hr.
    unfold MemCursor.fetchNewPastes, FileCursor.fetchNewPastes,
      CacheMon.fetchNewPastes. by rewrite Hr. }
  split.
  { intros cw x rest acc c e He. simpl. unfold CacheMon.cache_Get.
    by rewrite He. }
  split.
  { intros cw x rest acc c e Hg Hn Hs. simpl.
    unfold CacheMon.cache_Get, CacheMon.cache_Set. rewrite Hg, Hs.
    unfold is_new in Hn. destruct (c !! Key x) as [v|]; [|done].
    by destruct (String.eqb (String.string_of_list_byte v) (Date x)). }
  split.
  { intros env x e He. unfold processPaste. by rewrite He. }
  split.
  { intros env x body e Hb He. unfold processPaste, handed.
    by rewrite Hb, He. }
  intros fs k p. unfold FileCursor.persist.
  destruct (FileCursor.Truncate_fails fs k) as [e|]; [by eexists|].
  destruct (FileCursor.Seek_fails fs k) as [e|]; [by eexists|].
  destruct (FileCursor.WriteString_fails fs k) as [e|]; [by eexists|done].
Qed.

Lemma fail_loud_witness :
  MemCursor.Do (serving [paste_a])
    [refusing window_cba "b"; serving window_cba] 50 (MemCursor.mkMonitor "")
  = (Some (external "callback failed"), MemCursor.mkMonitor "c",
     [EvRecent 50] ++ [EvRecent 50] ++ handed paste_c ++ handed paste_b).
Proof.
  exact (proj1 fail_loud (serving [paste_a]) [] [serving window_cba]
           (refusing window_cba "b") 50 (MemCursor.mkMonitor "")
           (MemCursor.mkMonitor "a") (MemCursor.mkMonitor "c")
           [EvRecent 50]
           ([EvRecent 50] ++ handed paste_c ++ handed paste_b)
           (external "callback failed") eq_refl eq_refl).
Defined.

(** ** The order of the callbacks and the marker *)

Lemma after_rev (p : FileCursor.PastebinMonitor) (l : list Paste) :
  after p (rev l) = match l with
                    | [] => p
                    | y :: _ => saved p (Key y)
                    end.
Proof. destruct l as [|y l]; [done|]. apply after_rev_cons. Qed.

(** C3 (as the code has it).  Let [fetchNewPastes] return the new pastes
    [items], newest first.
    State file monitor, [do]: when every dispatch and save succeeds the
    callback is called once for each paste of [items], oldest first, and
    marker and state file end as the key of the newest paste; when the
    dispatch of paste [x] fails, the pastes older than [x] have been handed
    over, oldest first, the newer ones are not touched, and marker and state
    file hold the key of the last paste handed over before [x] (they are
    unchanged if there is none).
    In-memory cursor monitor and cache monitor, [tick]: the marker (the
    cache) is the one [fetchNewPastes] has left, before any dispatch; the
    callback is called in the order of [items], newest first, once for each
    paste when all succeed, and up to the first paste that fails
    otherwise. *)
Theorem dispatch_order (env : Remote) (fs : FileCursor.Disk)
    (cw : CacheMon.CacheWorld) (n : nat)
    (p p' : FileCursor.PastebinMonitor)
    (m m' : MemCursor.PastebinMonitor)
    (c c' : CacheMon.PastebinMonitor)
    (items : list Paste) (evs0 : list event) :
  (FileCursor.fetchNewPastes env n p = ((items, None), p', evs0) ->
   (forallb (accepted env) items = true ->
    forallb (fun pp => saves fs (Key pp)) items = true ->
    FileCursor.do env fs n p
      = (None,
         match items with
         | [] => p'
         | newest :: _ => saved p' (Key newest)
         end,
         evs0 ++ flat_map handed (rev items))
    /\ delivered (FileCursor.do env fs n p).2 = rev items)
   /\ (forall newer x older err evx,
         items = newer ++ x :: older ->
         forallb (accepted env) older = true ->
         forallb (fun pp => saves fs (Key pp)) older = true ->
         processPaste env x = (Some err, evx) ->
         FileCursor.do env fs n p
           = (Some (Errorf_w "process paste: " err),
              match older with
              | [] => p'
              | y :: _ => saved p' (Key y)
              end,
              evs0 ++ flat_map handed (rev older) ++ evx)))
  /\ (MemCursor.fetchNewPastes env n m = ((items, None), m', evs0) ->
      (forallb (accepted env) items = true ->
       MemCursor.tick env n m = (None, m', evs0 ++ flat_map handed items)
       /\ delivered (MemCursor.tick env n m).2 = items)
      /\ (forall l1 x l2 err evx,
            items = l1 ++ x :: l2 ->
            forallb (accepted env) l1 = true ->
            processPaste env x = (Some err, evx) ->
            MemCursor.tick env n m
              = (Some err, m', evs0 ++ flat_map handed l1 ++ evx)))
  /\ (CacheMon.fetchNewPastes env cw n c = ((items, None), c', evs0) ->
      (forallb (accepted env) items = true ->
       CacheMon.tick env cw n c = (None, c', evs0 ++ flat_map handed items)
       /\ delivered (CacheMon.tick env cw n c).2 = items)
      /\ (forall l1 x l2 err evx,
            items = l1 ++ x :: l2 ->
            forallb (accepted env) l1 = true ->
            processPaste env x = (Some err, evx) ->
            CacheMon.tick env cw n c
              = (Some err, c', evs0 ++ flat_map handed l1 ++ evx))).
Proof.
  split; [|split].
  - intros Hf. split.
    + intros Ha Hs. rewrite (do_all _ _ _ _ _ _ _ Hf Ha Hs), after_rev.
      split; [done|]. simpl snd.
      assert (Hlog : evs0 = [EvRecent n]).
      { revert Hf. unfold FileCursor.fetchNewPastes.
        destruct (recent env n) as [e|[|top rest]]; [done..|].
        destruct (String.eqb (FileCursor.topKey p) ""); by intros [= _ _ <-]. }
      subst evs0. simpl. apply delivered_handed.
    + intros newer x older err evx -> Ha Hs Hx.
      by rewrite (do_stop_dispatch _ _ _ _ _ _ _ _ _ _ _ Hf Ha Hs Hx),
        after_rev.
  - intros Hf. split.
    + intros Ha. rewrite (mem_tick_all _ _ _ _ _ _ Hf Ha).
      split; [done|]. simpl snd.
      pose proof (mem_fetch_log env n m) as Hlog. rewrite Hf in Hlog.
      simpl in Hlog. subst evs0. simpl. apply delivered_handed.
    + intros l1 x l2 err evx -> Ha Hx. by eapply mem_tick_stop.
  - intros Hf. split.
    + intros Ha. rewrite (cache_tick_all _ _ _ _ _ _ _ Hf Ha).
      split; [done|]. simpl snd.
      pose proof (cache_fetch_log env cw n c) as Hlog. rewrite Hf in Hlog.
      simpl in Hlog. subst evs0. simpl. apply delivered_handed.
    + intros l1 x l2 err evx -> Ha Hx. by eapply cache_tick_stop.
Qed.

Lemma dispatch_order_witness :
  FileCursor.do (serving window_cba) healthy 50
    (FileCursor.mkMonitor "a" fresh_file)
  = (None, saved (FileCursor.mkMonitor "a" fresh_file) "c",
     [EvRecent 50] ++ handed paste_b ++ handed paste_c)
  /\ FileCursor.do (refusing window_cba "c") healthy 50
       (FileCursor.mkMonitor "a" fresh_file)
     = (Some (Errorf_w "process paste: " (external "callback failed")),
        saved (FileCursor.mkMonitor "a" fresh_file) "b",
        [EvRecent 50] ++ handed paste_b ++ handed paste_c).
Proof.
  split.
  - exact (proj1 (proj1 (proj1 (dispatch_order (serving window_cba) healthy
             calm 50 (FileCursor.mkMonitor "a" fresh_file)
             (FileCursor.mkMonitor "a" fresh_file)
             (MemCursor.mkMonitor "a") (MemCursor.mkMonitor "c")
             (CacheMon.mkMonitor ∅) (CacheMon.mkMonitor ∅)
             [paste_c; paste_b] [EvRecent 50]) eq_refl) eq_refl eq_refl)).
  - exact (proj2 (proj1 (dispatch_order (refusing window_cba "c") healthy
             calm 50 (FileCursor.mkMonitor "a" fresh_file)
             (FileCursor.mkMonitor "a" fresh_file)
             (MemCursor.mkMonitor "a") (MemCursor.mkMonitor "c")
             (CacheMon.mkMonitor ∅) (CacheMon.mkMonitor ∅)
             [paste_c; paste_b] [EvRecent 50]) eq_refl)
             [] paste_c [paste_b]
             (external "callback failed") (handed paste_c)
             eq_refl eq_refl eq_refl eq_refl).
Defined.

(** The claim C3 as it is written fails on the in-memory monitor.  With the
    window c, b, a and the marker a, two new pastes are found and the
    callback gets them newest first: c, then b.  And when the callback
    refuses the very first paste it is handed, the marker is the newest key
    c all the same, because [fetchNewPastes] has set it before any
    dispatch. *)
Lemma dispatch_order_fails :
  delivered (MemCursor.tick (serving window_cba) 50
               (MemCursor.mkMonitor "a")).2 = [paste_c; paste_b]
  /\ [paste_c; paste_b] <> [paste_b; paste_c]
  /\ MemCursor.tick (refusing window_cba "c") 50 (MemCursor.mkMonitor "a")
     = (Some (external "callback failed"), MemCursor.mkMonitor "c",
        [EvRecent 50] ++ handed paste_c)
  /\ MemCursor.topKey
       (MemCursor.tick (refusing window_cba "c") 50
          (MemCursor.mkMonitor "a")).1.2 = Key paste_c.
Proof. repeat split; try reflexivity. discriminate. Qed.

(** * Further properties of the code *)

(** ** The slice the cursor monitors return *)

(** Either no paste has key [k], or there is a last one. *)
Lemma last_occurrence (k : string) (W : list Paste) :
  Forall (fun x => Key x <> k) W
  \/ exists l1 x l2, W = l1 ++ x :: l2 /\ Key x = k
       /\ Forall (fun y => Key y <> k) l2.
Proof.
  induction W as [|w W IH]; [by left|].
  destruct IH as [Habs|(l1 & x & l2 & -> & Hx & Hl2)].
  - destruct (String.eqb_spec (Key w) k) as [Hw|Hw].
    + right. exists [], w, W. done.
    + left. by constructor.
  - right. exists (w :: l1), x, l2. done.
Qed.

Lemma matchPos_last (k : string) (l1 l2 : list Paste) (x : Paste) :
  Key x = k ->
  Forall (fun y => Key y <> k) l2 ->
  matchPos (l1 ++ x :: l2) k = length l1.
Proof. intros Hx Hl2. unfold matchPos. by rewrite (scan_last k l1 l2 x). Qed.

Lemma firstn_matchPos_prefix (W : list Paste) (k : string) :
  W <> [] ->
  exists rest, rest <> [] /\ W = firstn (matchPos W k) W ++ rest.
Proof.
  intros HW. exists (skipn (matchPos W k) W). split.
  - pose proof (matchPos_bound W k) as Hb.
    pose proof (length_skipn (matchPos W k) W) as Hl.
    destruct W as [|w W]; [done|]. simpl length in *.
    intros Heq. rewrite Heq in Hl. simpl in Hl. lia.
  - by rewrite firstn_skipn.
Qed.

(** X1. What [fetchNewPastes] of the cursor monitors returns without an
    error is a proper prefix of the window: the window is the returned
    pastes followed by at least one more paste.  So the slice expression
    never runs out of range and the oldest paste of a window is never
    returned. *)
Theorem cursor_returns_proper_prefix (env : Remote) (n : nat)
    (W : list Paste) (p : MemCursor.PastebinMonitor)
    (q : FileCursor.PastebinMonitor) :
  recent env n = inr W ->
  ((MemCursor.fetchNewPastes env n p).1.1.2 = None ->
   exists rest, rest <> []
     /\ W = (MemCursor.fetchNewPastes env n p).1.1.1 ++ rest)
  /\ ((FileCursor.fetchNewPastes env n q).1.1.2 = None ->
      exists rest, rest <> []
        /\ W = (FileCursor.fetchNewPastes env n q).1.1.1 ++ rest).
Proof.
  intros Hw.
  unfold MemCursor.fetchNewPastes, FileCursor.fetchNewPastes. rewrite Hw.
  destruct W as [|top tl]; [done|]. split.
  - destruct (String.eqb (MemCursor.topKey p) ""); simpl; intros _.
    + by exists (top :: tl).
    + by apply firstn_matchPos_prefix.
  - destruct (String.eqb (FileCursor.topKey q) ""); simpl; intros _.
    + by exists (top :: tl).
    + by apply firstn_matchPos_prefix.
Qed.

Lemma cursor_returns_proper_prefix_witness :
  exists rest, rest <> []
    /\ window_cba
       = (MemCursor.fetchNewPastes (serving window_cba) 50
            (MemCursor.mkMonitor "z")).1.1.1 ++ rest.
Proof.
  exact (proj1 (cursor_returns_proper_prefix (serving window_cba) 50
                  window_cba (MemCursor.mkMonitor "z")
                  (FileCursor.mkMonitor "z" fresh_file) eq_refl) eq_refl).
Defined.

(** X2. When several pastes of the window carry the marker, the last of them
    decides: for a window [l1 ++ x :: l2] in which [x] has the non-empty
    marker as key and no paste of [l2] has, [fetchNewPastes] of both cursor
    monitors returns [l1], including the pastes of [l1] that carry the
    marker themselves. *)
Theorem last_marker_decides (env : Remote) (n : nat) (l1 l2 : list Paste)
    (x : Paste) (k : string) (f : FileCursor.File) :
  recent env n = inr (l1 ++ x :: l2) ->
  k <> "" ->
  Key x = k ->
  Forall (fun y => Key y <> k) l2 ->
  (MemCursor.fetchNewPastes env n (MemCursor.mkMonitor k)).1.1 = (l1, None)
  /\ (FileCursor.fetchNewPastes env n (FileCursor.mkMonitor k f)).1.1
     = (l1, None).
Proof.
  intros Hw Hk Hx Hl2.
  assert (Hm : firstn (matchPos (l1 ++ x :: l2) k) (l1 ++ x :: l2) = l1).
  { rewrite (matchPos_last k l1 l2 x Hx Hl2).
    rewrite firstn_app, firstn_all, Nat.sub_diag. simpl. by rewrite app_nil_r. }
  unfold MemCursor.fetchNewPastes, FileCursor.fetchNewPastes. rewrite Hw.
  simpl MemCursor.topKey. simpl FileCursor.topKey.
  rewrite (eqb_unset _ Hk).
  destruct (l1 ++ x :: l2) as [|top tl] eqn:HW.
  { by destruct l1. }
  simpl. by rewrite Hm.
Qed.

Lemma last_marker_decides_witness :
  (MemCursor.fetchNewPastes (serving [paste_c; paste_a; paste_b; paste_a]) 50
     (MemCursor.mkMonitor "a")).1.1
  = ([paste_c; paste_a; paste_b], None).
Proof.
  assert (Hk : "a" <> "") by discriminate.
  assert (Hl2 : Forall (fun y => Key y <> "a") []) by constructor.
  exact (proj1 (last_marker_decides
                  (serving [paste_c; paste_a; paste_b; paste_a]) 50
                  [paste_c; paste_a; paste_b] [] paste_a "a" fresh_file
                  eq_refl Hk eq_refl Hl2)).
Defined.

(** X3. With pairwise distinct keys in the window, no paste that
    [fetchNewPastes] of a cursor monitor returns has the marker the call
    started with as key: the paste last seen is not reported again. *)
Theorem marker_paste_not_returned (env : Remote) (n : nat) (W : list Paste)
    (p : MemCursor.PastebinMonitor) (q : FileCursor.PastebinMonitor)
    (y : Paste) :
  recent env n = inr W ->
  NoDup (map Key W) ->
  (In y (MemCursor.fetchNewPastes env n p).1.1.1 ->
   Key y <> MemCursor.topKey p)
  /\ (In y (FileCursor.fetchNewPastes env n q).1.1.1 ->
      Key y <> FileCursor.topKey q).
Proof.
  intros Hw Hnd.
  assert (Hgo : forall k, In y (firstn (matchPos W k) W) -> Key y <> k).
  { intros k. destruct (last_occurrence k W)
      as [Habs|(l1 & x & l2 & -> & Hx & Hl2)].
    - intros Hin. rewrite Forall_forall in Habs. apply Habs.
      apply list_elem_of_In in Hin.
      by apply (elem_of_sublist _ _ _ Hin (sublist_take W (matchPos W k))).
    - rewrite (matchPos_last k l1 l2 x Hx Hl2).
      rewrite firstn_app, firstn_all, Nat.sub_diag. simpl. rewrite app_nil_r.
      intros Hin Hy. rewrite map_app in Hnd. simpl in Hnd.
      apply NoDup_app in Hnd as (_ & Hdis & _).
      apply (Hdis (Key y)).
      + apply list_elem_of_In. by apply in_map.
      + rewrite Hy, <- Hx. by left. }
  unfold MemCursor.fetchNewPastes, FileCursor.fetchNewPastes. rewrite Hw.
  destruct W as [|top tl]; [done|]. split.
  - destruct (String.eqb (MemCursor.topKey p) ""); simpl; [done|apply Hgo].
  - destruct (String.eqb (FileCursor.topKey q) ""); simpl; [done|apply Hgo].
Qed.

Lemma marker_paste_not_returned_witness :
  In paste_b (MemCursor.fetchNewPastes (serving window_cba) 50
                (MemCursor.mkMonitor "a")).1.1.1
  /\ Key paste_b <> "a".
Proof.
  assert (Hnd : NoDup (map Key window_cba)).
  { by apply (bool_decide_unpack (NoDup (map Key window_cba))). }
  assert (Hin : In paste_b (MemCursor.fetchNewPastes (serving window_cba) 50
                              (MemCursor.mkMonitor "a")).1.1.1).
  { simpl. tauto. }
  split; [exact Hin|].
  exact (proj1 (marker_paste_not_returned (serving window_cba) 50 window_cba
                  (MemCursor.mkMonitor "a")
                  (FileCursor.mkMonitor "a" fresh_file) paste_b eq_refl Hnd)
           Hin).
Defined.

(** ** The state file *)

Lemma run_nothing_delivered (env : Remote) (fs : FileCursor.Disk)
    (items : list Paste) (p : FileCursor.PastebinMonitor) :
  delivered (run env fs items p).2 = [] ->
  (run env fs items p).1.2 = p.
Proof.
  destruct items as [|x items]; simpl; [done|].
  destruct (accepted env x) eqn:Hx.
  - rewrite (processPaste_accepted _ _ Hx).
    destruct (FileCursor.persist fs (Key x) p) as [[err|] p']; [done|].
    by destruct (run env fs items p') as [[r p''] evs'].
  - destruct (processPaste_refused _ _ Hx) as (err & evs & -> & [->| ->]);
      done.
Qed.

Lemma file_fetch_keeps_file (env : Remote) (n : nat)
    (p : FileCursor.PastebinMonitor) :
  FileCursor.stateFile (FileCursor.fetchNewPastes env n p).1.2
    = FileCursor.stateFile p
  /\ delivered (FileCursor.fetchNewPastes env n p).2 = [].
Proof.
  unfold FileCursor.fetchNewPastes.
  destruct (recent env n) as [err|[|top tl]]; [done..|].
  by destruct (String.eqb (FileCursor.topKey p) "").
Qed.

Lemma do_nothing_delivered (env : Remote) (fs : FileCursor.Disk) (n : nat)
    (p : FileCursor.PastebinMonitor) :
  delivered (FileCursor.do env fs n p).2 = [] ->
  FileCursor.stateFile (FileCursor.do env fs n p).1.2
    = FileCursor.stateFile p.
Proof.
  unfold FileCursor.do.
  destruct (file_fetch_keeps_file env n p) as [Hfile Hlog].
  destruct (FileCursor.fetchNewPastes env n p) as [[[items [err|]] p'] evs];
    simpl in *; [done|].
  rewrite do_loop_run by done. rewrite firstn_all.
  pose proof (run_nothing_delivered env fs (rev items) p') as Hrun.
  destruct (run env fs (rev items) p') as [[r p''] evs']. simpl in *.
  rewrite delivered_app, Hlog. simpl. intros Hd. by rewrite (Hrun Hd).
Qed.

(** X4. The state file monitor writes its state file only after a callback
    has been called: when a run of [Do], over any number of ticks and
    whatever fails in it, has handed no paste to the callback, the state file
    is the one [Do] started with, bytes and offset. *)
Theorem state_file_untouched_without_delivery
    (first : Remote * FileCursor.Disk)
    (later : list (Remote * FileCursor.Disk)) (n : nat)
    (p : FileCursor.PastebinMonitor) :
  delivered (FileCursor.Do first later n p).2 = [] ->
  FileCursor.stateFile (FileCursor.Do first later n p).1.2
    = FileCursor.stateFile p.
Proof.
  unfold FileCursor.Do. generalize (first :: later). clear first later.
  intros envs. revert p.
  induction envs as [|[env fs] envs IH]; intros p; simpl; [done|].
  pose proof (do_nothing_delivered env fs n p) as Hdo.
  destruct (FileCursor.do env fs n p) as [[[err|] p'] evs]; simpl in *;
    [done|].
  specialize (IH p').
  destruct (FileCursor.ticks envs n p') as [[r p''] evs']. simpl in *.
  rewrite delivered_app. intros [H1 H2]%app_eq_nil.
  by rewrite (IH H2), (Hdo H1).
Qed.

Lemma state_file_untouched_without_delivery_witness :
  FileCursor.stateFile
    (FileCursor.Do (serving window_cba, healthy)
       [(serving window_cba, healthy)] 50
       (FileCursor.mkMonitor "" fresh_file)).1.2
  = fresh_file.
Proof.
  exact (state_file_untouched_without_delivery (serving window_cba, healthy)
           [(serving window_cba, healthy)] 50
           (FileCursor.mkMonitor "" fresh_file) eq_refl).
Defined.

(** X5. [readState] on a reader that does not fail never returns an error,
    from any file at any offset: at or behind the end of the file it returns
    the empty string and leaves the file alone; before the end it returns a
    string of exactly [pasteIDLen] = 9 bytes, that begins with the bytes
    read, and moves the offset forward by the number of bytes read, at most
    9, without changing the content. *)
Theorem readState_shape (f : FileCursor.File) :
  (FileCursor.readState None f).1.2 = None
  /\ (length (FileCursor.content f) <= FileCursor.offset f ->
      FileCursor.readState None f = (("", None), f))
  /\ (FileCursor.offset f < length (FileCursor.content f) ->
      String.length (FileCursor.readState None f).1.1 = FileCursor.pasteIDLen
      /\ firstn
           (Nat.min FileCursor.pasteIDLen
              (length (FileCursor.content f) - FileCursor.offset f))
           (String.list_byte_of_string (FileCursor.readState None f).1.1)
         = firstn FileCursor.pasteIDLen
             (skipn (FileCursor.offset f) (FileCursor.content f))
      /\ FileCursor.content (FileCursor.readState None f).2
         = FileCursor.content f
      /\ FileCursor.offset (FileCursor.readState None f).2
         = FileCursor.offset f
           + Nat.min FileCursor.pasteIDLen
               (length (FileCursor.content f) - FileCursor.offset f)).
Proof.
  unfold FileCursor.readState, FileCursor.Read, FileCursor.pasteIDLen.
  simpl repeat. simpl length.
  pose proof (length_skipn (FileCursor.offset f) (FileCursor.content f)) as Hl.
  destruct (skipn (FileCursor.offset f) (FileCursor.content f)) as [|b bs]
    eqn:Hs; simpl length in Hl.
  - simpl. split; [done|]. split; [done|]. lia.
  - rewrite <- Hl.
    do 9 (destruct bs as [|? bs];
          [simpl; split; [done|]; split; [simpl in Hl; lia|];
           by rewrite ?Ascii.byte_of_ascii_of_byte|]).
    simpl. split; [done|]. split; [simpl in Hl; lia|].
    by rewrite ?Ascii.byte_of_ascii_of_byte.
Qed.

Lemma readState_shape_witness :
  String.length
    (FileCursor.readState None
       (FileCursor.mkFile ".pbmon" (String.list_byte_of_string "abc") 1)).1.1
  = FileCursor.pasteIDLen.
Proof.
  refine (proj1 (proj2 (proj2 (readState_shape
            (FileCursor.mkFile ".pbmon"
               (String.list_byte_of_string "abc") 1))) _)).
  simpl. lia.
Defined.

(** ** The cache monitor *)

Lemma classify_sublist (cw : CacheMon.CacheWorld) (W acc : list Paste)
    (c : gmap string (list byte)) :
  exists l, (CacheMon.classify cw W acc c).1.1 = acc ++ l /\ sublist l W.
Proof.
  revert acc c. induction W as [|w W IH]; intros acc c; simpl.
  { exists []. by rewrite app_nil_r. }
  assert (Hstop : exists l, acc = acc ++ l /\ sublist l (w :: W)).
  { exists []. rewrite app_nil_r. split; [done|]. apply sublist_nil_l. }
  assert (Hskip : exists l,
            (CacheMon.classify cw W acc c).1.1 = acc ++ l
            /\ sublist l (w :: W)).
  { destruct (IH acc c) as (l & -> & Hl). exists l. split; [done|].
    by apply sublist_cons. }
  assert (Hset : exists l,
    (match CacheMon.cache_Set cw c (Key w)
             (String.list_byte_of_string (Date w)) with
     | (Some err, c') => ((acc, Some err), c')
     | (None, c') => CacheMon.classify cw W (acc ++ [w]) c'
     end).1.1 = acc ++ l /\ sublist l (w :: W)).
  { destruct (CacheMon.cache_Set cw c (Key w)
                (String.list_byte_of_string (Date w))) as [[err|] c'];
      [done|].
    destruct (IH (acc ++ [w]) c') as (l & -> & Hl). exists (w :: l).
    rewrite <- app_assoc. split; [done|]. by apply sublist_skip. }
  destruct (CacheMon.cache_Get cw c (Key w)) as [v| |err]; [|done|done].
  by destruct (String.eqb (String.string_of_list_byte v) (Date w)).
Qed.

(** X6. The pastes the cache monitor classifies as new are pastes of the
    window, in window order, each at most as often as the window holds it,
    also when a call of the cache fails half way through the window. *)
Theorem cache_detects_sublist_of_window (env : Remote)
    (cw : CacheMon.CacheWorld) (n : nat) (p : CacheMon.PastebinMonitor)
    (W : list Paste) :
  recent env n = inr W ->
  sublist (detected env cw n p) W.
Proof.
  intros Hw. unfold detected. rewrite (fetch_classify _ _ _ _ _ Hw). simpl.
  destruct (classify_sublist cw W []
              (CacheMon.evict (CacheMon.expired cw) (CacheMon.cache p)))
    as (l & -> & Hl). done.
Qed.

Lemma cache_detects_sublist_of_window_witness :
  sublist
    (detected (serving window_cba)
       (CacheMon.mkCacheWorld []
          (fun k => if String.eqb k "b" then Some (external "get") else None)
          (fun _ => None))
       50 (CacheMon.mkMonitor ∅))
    window_cba.
Proof.
  exact (cache_detects_sublist_of_window (serving window_cba) _ 50
           (CacheMon.mkMonitor ∅) window_cba eq_refl).
Defined.

Lemma filter_none {A : Type} (f : A -> bool) (l : list A) :
  (forall x, In x l -> f x = false) -> List.filter f l = [].
Proof.
  induction l as [|a l IH]; intros H; simpl; [done|].
  rewrite (H a (or_introl eq_refl)). apply IH. intros x Hx. apply H. by right.
Qed.

(** X7. Polling the same window twice: when the window has pairwise distinct
    keys, the cache calls do not fail and no entry of the window expires
    before the second poll, the second [fetchNewPastes] of the cache monitor
    classifies no paste as new, returns no error, and the dates of the
    window are still in the cache. *)
Theorem cache_poll_idempotent (env : Remote) (cw1 cw2 : CacheMon.CacheWorld)
    (n : nat) (p : CacheMon.PastebinMonitor) (W : list Paste) :
  recent env n = inr W ->
  NoDup (map Key W) ->
  forallb (fun pp => sound cw1 (Key pp)) W = true ->
  forallb (fun pp => sound cw2 (Key pp)) W = true ->
  (forall x, In x W -> ~ In (Key x) (CacheMon.expired cw2)) ->
  detected env cw2 n (next env cw1 n p) = []
  /\ (CacheMon.fetchNewPastes env cw2 n (next env cw1 n p)).1.1.2 = None
  /\ forall x, In x W ->
       CacheMon.cache (next env cw2 n (next env cw1 n p)) !! Key x
       = Some (String.list_byte_of_string (Date x)).
Proof.
  intros Hw Hnd Hs1 Hs2 Hexp.
  unfold detected, next.
  rewrite (fetch_classify env cw1 n p W Hw). simpl snd.
  rewrite (fetch_classify env cw2 n _ W Hw). simpl fst. simpl snd.
  simpl CacheMon.cache.
  split; [|split].
  - rewrite (classify_filter cw2 W [] _ Hs2 Hnd). simpl.
    apply filter_none. intros x Hx. unfold is_new.
    rewrite (evict_lookup _ _ _ (Hexp x Hx)).
    rewrite (classify_lookup_in cw1 W [] _ x Hs1 Hnd Hx).
    by rewrite String.string_of_list_byte_of_string, String.eqb_refl.
  - by apply classify_no_error.
  - intros x Hx. by apply classify_lookup_in.
Qed.

Lemma cache_poll_idempotent_witness :
  detected (serving window_cba) calm 50
    (next (serving window_cba) calm 50 (CacheMon.mkMonitor ∅)) = [].
Proof.
  assert (Hnd : NoDup (map Key window_cba)).
  { by apply (bool_decide_unpack (NoDup (map Key window_cba))). }
  assert (Hexp : forall x, In x window_cba ->
                   ~ In (Key x) (CacheMon.expired calm)).
  { intros x _ []. }
  exact (proj1 (cache_poll_idempotent (serving window_cba) calm calm 50
                  (CacheMon.mkMonitor ∅) window_cba eq_refl Hnd eq_refl
                  eq_refl Hexp)).
Defined.




(** X9. [fetchNewPastes] of the cache monitor writes under the keys of the
    window only: the entry of a key that is not in the window and has not
    expired is after the call what it was before, also when the call fails
    half way; and when [recent] fails the monitor is not changed at all. *)
Theorem cache_other_keys_untouched (env : Remote) (cw : CacheMon.CacheWorld)
    (n : nat) (p : CacheMon.PastebinMonitor) (k : string) :
  (forall W, recent env n = inr W ->
     ~ In k (map Key W) ->
     ~ In k (CacheMon.expired cw) ->
     CacheMon.cache (next env cw n p) !! k = CacheMon.cache p !! k)
  /\ (forall e, recent env n = inl e -> next env cw n p = p).
Proof.
  split.
  - intros W Hw Hk Hexp. unfold next.
    rewrite (fetch_classify _ _ _ _ _ Hw). simpl.
    rewrite classify_lookup_other by done. by apply evict_lookup.
  - intros e He. unfold next, CacheMon.fetchNewPastes. by rewrite He.
Qed.

Lemma cache_other_keys_untouched_witness :
  CacheMon.cache
    (next (serving window_cba)
       (CacheMon.mkCacheWorld []
          (fun k => if String.eqb k "b" then Some (external "get") else None)
          (fun _ => None))
       50 (CacheMon.mkMonitor {["q" := String.list_byte_of_string "7"]}))
    !! "q"
  = Some (String.list_byte_of_string "7").
Proof.
  assert (Hk : ~ In "q" (map Key window_cba)).
  { simpl. intros [H|[H|[H|[]]]]; discriminate. }
  assert (Hexp : ~ In "q" []) by (intros []).
  rewrite (proj1 (cache_other_keys_untouched (serving window_cba)
                    (CacheMon.mkCacheWorld []
                       (fun k => if String.eqb k "b"
                                 then Some (external "get") else None)
                       (fun _ => None))
                    50
                    (CacheMon.mkMonitor
                       {["q" := String.list_byte_of_string "7"]}) "q")
             window_cba eq_refl Hk Hexp).
  reflexivity.
Defined.

(** X10. An empty window is no error for the cache monitor: when every
    window served is empty, [Do] neither returns nor calls the callback,
    however many ticks it receives. *)
Theorem cache_empty_windows_go_on (first : Remote * CacheMon.CacheWorld)
    (later : list (Remote * CacheMon.CacheWorld)) (n : nat)
    (q : CacheMon.PastebinMonitor) :
  Forall (fun ec => recent ec.1 n = inr []) (first :: later) ->
  (CacheMon.Do first later n q).1.1 = None
  /\ delivered (CacheMon.Do first later n q).2 = [].
Proof.
  intros Hall. apply Forall_cons in Hall as [Hfirst Hlater].
  assert (Hticks : forall q',
            (CacheMon.ticks later n q').1.1 = None
            /\ delivered (CacheMon.ticks later n q').2 = []).
  { induction Hlater as [|[env cw] later Hw _ IH]; intros q'; simpl; [done|].
    simpl in Hw. unfold CacheMon.tick, CacheMon.fetchNewPastes.
    rewrite Hw. simpl.
    destruct (IH (CacheMon.mkMonitor
                    (CacheMon.evict (CacheMon.expired cw)
                       (CacheMon.cache q')))) as [H1 H2].
    destruct (CacheMon.ticks later n _) as [[r p''] evs']. simpl in *.
    done. }
  unfold CacheMon.Do, CacheMon.fetchNewPastes. rewrite Hfirst. simpl.
  destruct (Hticks (CacheMon.mkMonitor
                      (CacheMon.evict (CacheMon.expired first.2)
                         (CacheMon.cache q)))) as [H1 H2].
  destruct (CacheMon.ticks later n _) as [[r p''] evs']. simpl in *.
  done.
Qed.

Lemma cache_empty_windows_go_on_witness :
  (CacheMon.Do (serving [], calm) [(serving [], calm); (serving [], calm)] 50
     (CacheMon.mkMonitor ∅)).1.1 = None.
Proof.
  assert (Hall : Forall (fun ec : Remote * CacheMon.CacheWorld =>
                           recent ec.1 50 = inr [])
                   [(serving [], calm); (serving [], calm);
                    (serving [], calm)]).
  { by repeat constructor. }
  exact (proj1 (cache_empty_windows_go_on (serving [], calm)
                  [(serving [], calm); (serving [], calm)] 50
                  (CacheMon.mkMonitor ∅) Hall)).
Defined.

(** ** How often the monitors poll *)

(** The number of requests for the recent pastes in a log. *)
Fixpoint polls (log : list event) : nat :=
  match log with
  | [] => 0
  | EvRecent _ :: rest => S (polls rest)
  | _ :: rest => polls rest
  end.

Lemma polls_app (l1 l2 : list event) : polls (l1 ++ l2) = polls l1 + polls l2.
Proof.
  induction l1 as [|e l1 IH]; simpl; [done|]. destruct e; simpl; by rewrite IH.
Qed.

Lemma polls_processPaste (env : Remote) (x : Paste) :
  polls (processPaste env x).2 = 0.
Proof. unfold processPaste. by destruct (GetRaw env (Key x)). Qed.

Lemma polls_mem_dispatch (env : Remote) (l : list Paste) :
  polls (MemCursor.dispatch env l).2 = 0.
Proof.
  induction l as [|x l IH]; simpl; [done|].
  pose proof (polls_processPaste env x) as Hx.
  destruct (processPaste env x) as [[err|] evs]; simpl in *; [done|].
  destruct (MemCursor.dispatch env l) as [r evs']. simpl in *.
  rewrite polls_app. lia.
Qed.

Lemma polls_cache_dispatch (env : Remote) (l : list Paste) :
  polls (CacheMon.dispatch env l).2 = 0.
Proof.
  induction l as [|x l IH]; simpl; [done|].
  pose proof (polls_processPaste env x) as Hx.
  destruct (processPaste env x) as [[err|] evs]; simpl in *; [done|].
  destruct (CacheMon.dispatch env l) as [r evs']. simpl in *.
  rewrite polls_app. lia.
Qed.

Lemma polls_run (env : Remote) (fs : FileCursor.Disk) (l : list Paste)
    (p : FileCursor.PastebinMonitor) :
  polls (run env fs l p).2 = 0.
Proof.
  revert p. induction l as [|x l IH]; intros p; simpl; [done|].
  pose proof (polls_processPaste env x) as Hx.
  destruct (processPaste env x) as [[err|] evs]; simpl in *; [done|].
  destruct (FileCursor.persist fs (Key x) p) as [[err|] p']; [done|].
  specialize (IH p').
  destruct (run env fs l p') as [[r p''] evs']. simpl in *.
  rewrite polls_app. lia.
Qed.

Lemma polls_mem_tick (env : Remote) (n : nat) (p : MemCursor.PastebinMonitor) :
  polls (MemCursor.tick env n p).2 = 1.
Proof.
  unfold MemCursor.tick. pose proof (mem_fetch_log env n p) as Hlog.
  destruct (MemCursor.fetchNewPastes env n p) as [[[items [err|]] p'] evs];
    simpl in *; subst evs; [done|].
  pose proof (polls_mem_dispatch env items) as Hd.
  destruct (MemCursor.dispatch env items) as [r evs']. simpl in *. lia.
Qed.

Lemma polls_cache_tick (env : Remote) (cw : CacheMon.CacheWorld) (n : nat)
    (p : CacheMon.PastebinMonitor) :
  polls (CacheMon.tick env cw n p).2 = 1.
Proof.
  unfold CacheMon.tick. pose proof (cache_fetch_log env cw n p) as Hlog.
  destruct (CacheMon.fetchNewPastes env cw n p) as [[[items [err|]] p'] evs];
    simpl in *; subst evs; [done|].
  pose proof (polls_cache_dispatch env items) as Hd.
  destruct (CacheMon.dispatch env items) as [r evs']. simpl in *. lia.
Qed.

Lemma polls_do (env : Remote) (fs : FileCursor.Disk) (n : nat)
    (p : FileCursor.PastebinMonitor) :
  polls (FileCursor.do env fs n p).2 = 1.
Proof.
  unfold FileCursor.do.
  assert (Hlog : (FileCursor.fetchNewPastes env n p).2 = [EvRecent n]).
  { unfold FileCursor.fetchNewPastes.
    destruct (recent env n) as [e|[|top rest]]; [done..|].
    by destruct (String.eqb (FileCursor.topKey p) ""). }
  destruct (FileCursor.fetchNewPastes env n p) as [[[items [err|]] p'] evs];
    simpl in *; subst evs; [done|].
  rewrite do_loop_run by done.
  pose proof (polls_run env fs (rev (firstn (length items) items)) p') as Hr.
  destruct (run env fs (rev (firstn (length items) items)) p')
    as [[r p''] evs']. simpl in *. lia.
Qed.

(** X11. One request per cycle.  In the log of [Do] of each monitor the
    number of requests for the recent pastes is at most one for the call
    before the ticker plus one per tick received, and exactly that number
    while [Do] has not returned: no cycle asks twice, whatever fails. *)
Theorem one_request_per_cycle (n : nat)
    (first : Remote) (later : list Remote) (p : MemCursor.PastebinMonitor)
    (ffirst : Remote * FileCursor.Disk)
    (flater : list (Remote * FileCursor.Disk))
    (q : FileCursor.PastebinMonitor)
    (cfirst : Remote * CacheMon.CacheWorld)
    (clater : list (Remote * CacheMon.CacheWorld))
    (c : CacheMon.PastebinMonitor) :
  (1 <= polls (MemCursor.Do first later n p).2 <= 1 + length later
   /\ ((MemCursor.Do first later n p).1.1 = None ->
       polls (MemCursor.Do first later n p).2 = 1 + length later))
  /\ (1 <= polls (FileCursor.Do ffirst flater n q).2 <= 1 + length flater
      /\ ((FileCursor.Do ffirst flater n q).1.1 = None ->
          polls (FileCursor.Do ffirst flater n q).2 = 1 + length flater))
  /\ (1 <= polls (CacheMon.Do cfirst clater n c).2 <= 1 + length clater
      /\ ((CacheMon.Do cfirst clater n c).1.1 = None ->
          polls (CacheMon.Do cfirst clater n c).2 = 1 + length clater)).
Proof.
  assert (Hmem : forall envs p0,
            polls (MemCursor.ticks envs n p0).2 <= length envs
            /\ ((MemCursor.ticks envs n p0).1.1 = None ->
                polls (MemCursor.ticks envs n p0).2 = length envs)).
  { induction envs as [|env envs IH]; intros p0; simpl; [done|].
    pose proof (polls_mem_tick env n p0) as Ht.
    destruct (MemCursor.tick env n p0) as [[[err|] p'] evs]; simpl in *.
    { split; [lia|done]. }
    destruct (IH p') as [H1 H2].
    destruct (MemCursor.ticks envs n p') as [[r p''] evs']. simpl in *.
    rewrite polls_app. split; [lia|]. intros Hr. rewrite (H2 Hr). lia. }
  assert (Hfile : forall envs q0,
            polls (FileCursor.ticks envs n q0).2 <= length envs
            /\ ((FileCursor.ticks envs n q0).1.1 = None ->
                polls (FileCursor.ticks envs n q0).2 = length envs)).
  { induction envs as [|[env fs] envs IH]; intros q0; simpl; [done|].
    pose proof (polls_do env fs n q0) as Ht.
    destruct (FileCursor.do env fs n q0) as [[[err|] p'] evs]; simpl in *.
    { split; [lia|done]. }
    destruct (IH p') as [H1 H2].
    destruct (FileCursor.ticks envs n p') as [[r p''] evs']. simpl in *.
    rewrite polls_app. split; [lia|]. intros Hr. rewrite (H2 Hr). lia. }
  assert (Hcache : forall envs c0,
            polls (CacheMon.ticks envs n c0).2 <= length envs
            /\ ((CacheMon.ticks envs n c0).1.1 = None ->
                polls (CacheMon.ticks envs n c0).2 = length envs)).
  { induction envs as [|[env cw] envs IH]; intros c0; simpl; [done|].
    pose proof (polls_cache_tick env cw n c0) as Ht.
    destruct (CacheMon.tick env cw n c0) as [[[err|] p'] evs]; simpl in *.
    { split; [lia|done]. }
    destruct (IH p') as [H1 H2].
    destruct (CacheMon.ticks envs n p') as [[r p''] evs']. simpl in *.
    rewrite polls_app. split; [lia|]. intros Hr. rewrite (H2 Hr). lia. }
  split; [|split].
  - unfold MemCursor.Do. pose proof (mem_fetch_log first n p) as Hlog.
    destruct (MemCursor.fetchNewPastes first n p) as [[[items [err|]] p'] evs];
      simpl in *; subst evs.
    { simpl. split; [lia|done]. }
    destruct (Hmem later p') as [H1 H2].
    destruct (MemCursor.ticks later n p') as [[r p''] evs']. simpl in *.
    split; [lia|]. intros Hr. by rewrite (H2 Hr).
  - unfold FileCursor.Do. destruct ffirst as [env fs]. simpl.
    pose proof (polls_do env fs n q) as Ht.
    destruct (FileCursor.do env fs n q) as [[[err|] p'] evs]; simpl in *.
    { split; [lia|done]. }
    destruct (Hfile flater p') as [H1 H2].
    destruct (FileCursor.ticks flater n p') as [[r p''] evs']. simpl in *.
    rewrite polls_app. split; [lia|]. intros Hr. rewrite (H2 Hr). lia.
  - unfold CacheMon.Do.
    pose proof (cache_fetch_log cfirst.1 cfirst.2 n c) as Hlog.
    destruct (CacheMon.fetchNewPastes cfirst.1 cfirst.2 n c)
      as [[[items [err|]] p'] evs]; simpl in *; subst evs.
    { simpl. split; [lia|done]. }
    destruct (Hcache clater p') as [H1 H2].
    destruct (CacheMon.ticks clater n p') as [[r p''] evs']. simpl in *.
    split; [lia|]. intros Hr. by rewrite (H2 Hr).
Qed.

(** ** The request *)

(** X12. The two versions of [recent] accept the same responses.  Both
    return the decoded pastes exactly when the request can be built, the
    transport answers, the status code is 200 and the body decodes; in every
    other case both fail, and their errors have the same innermost cause
    (the state file revision only wraps it). *)
Theorem recent_versions_agree (c : Scrape.Client) (size : nat) :
  match Scrape.recent c size, Scrape.recent_wrapped c size with
  | inr a, inr b => a = b
  | inl e1, inl e2 => root_cause e1 = root_cause e2
  | _, _ => False
  end
  /\ (forall pastes,
        Scrape.recent c size = inr pastes
        <-> exists url resp,
              Scrape.NewRequest c "GET" (Scrape.path size) = inr url
              /\ Scrape.Do c url = inr resp
              /\ Scrape.StatusCode resp = 200
              /\ Scrape.Decode resp = inr pastes).
Proof.
  unfold Scrape.recent, Scrape.recent_wrapped. split.
  - destruct (Scrape.NewRequest c "GET" (Scrape.path size)) as [e|url];
      [done|].
    destruct (Scrape.Do c url) as [e|resp]; [done|].
    destruct (negb (Scrape.StatusCode resp =? 200)); [done|].
    by destruct (Scrape.Decode resp).
  - intros pastes. split.
    + destruct (Scrape.NewRequest c "GET" (Scrape.path size)) as [e|url];
        [done|].
      destruct (Scrape.Do c url) as [e|resp] eqn:Hdo; [done|].
      destruct (Scrape.StatusCode resp =? 200) eqn:Hc; simpl; [|done].
      destruct (Scrape.Decode resp) as [e|ps] eqn:Hd; [done|].
      intros [= <-]. exists url, resp. apply Nat.eqb_eq in Hc. done.
    + intros (url & resp & -> & -> & Hc & ->).
      apply Nat.eqb_eq in Hc. by rewrite Hc.
Qed.

(** X13. A response with a status code other than 200 ends every monitor at
    once: [Do] returns the status error that names the URL and the code
    (wrapped twice by the state file monitor), no callback is called and the
    monitor, marker, cache and state file, is the one [Do] started with,
    also when the body of the response would decode. *)
Theorem bad_status_stops_monitor (c : Scrape.Client)
    (g : string -> error + Body) (o : Paste -> Body -> option error)
    (n : nat) (url : string) (resp : Scrape.Response)
    (later : list Remote) (p : MemCursor.PastebinMonitor)
    (cw : CacheMon.CacheWorld) (clater : list (Remote * CacheMon.CacheWorld))
    (q : CacheMon.PastebinMonitor)
    (fs : FileCursor.Disk) (flater : list (Remote * FileCursor.Disk))
    (r : FileCursor.PastebinMonitor) :
  Scrape.NewRequest c "GET" (Scrape.path n) = inr url ->
  Scrape.Do c url = inr resp ->
  Scrape.StatusCode resp <> 200 ->
  MemCursor.Do (mkRemote (Scrape.recent c) g o) later n p
    = (Some (Scrape.status_error url (Scrape.StatusCode resp)), p,
       [EvRecent n])
  /\ CacheMon.Do (mkRemote (Scrape.recent c) g o, cw) clater n q
     = (Some (Scrape.status_error url (Scrape.StatusCode resp)), q,
        [EvRecent n])
  /\ FileCursor.Do (mkRemote (Scrape.recent_wrapped c) g o, fs) flater n r
     = (Some (Errorf_w "fetch pastes: "
                (Errorf_w "recent pastes: "
                   (Scrape.status_error url (Scrape.StatusCode resp)))),
        r, [EvRecent n]).
Proof.
  intros Hreq Hdo Hc. apply Nat.eqb_neq in Hc.
  unfold MemCursor.Do, CacheMon.Do, FileCursor.Do. simpl.
  unfold FileCursor.do, MemCursor.fetchNewPastes, CacheMon.fetchNewPastes,
    FileCursor.fetchNewPastes. simpl.
  unfold Scrape.recent, Scrape.recent_wrapped.
  by rewrite Hreq, Hdo, Hc.
Qed.

(** A client of the scraping host whose every answer is [resp]. *)
Definition answering (resp : Scrape.Response) : Scrape.Client :=
  Scrape.mkClient
    (fun _ path => inr (String.append "https://scrape.pastebin.com" path))
    (fun _ => inr resp).

Lemma bad_status_stops_monitor_witness :
  MemCursor.Do
    (mkRemote (Scrape.recent
                 (answering (Scrape.mkResponse 404 (inr window_cba))))
       (fun _ => inr []) (fun _ _ => None))
    [serving window_cba] 50 (MemCursor.mkMonitor "a")
  = (Some (errors_New
       "https://scrape.pastebin.com/api_scraping.php?limit=50 returned status code 404"),
     MemCursor.mkMonitor "a", [EvRecent 50]).
Proof.
  assert (Hc : Scrape.StatusCode (Scrape.mkResponse 404 (inr window_cba))
               <> 200) by (simpl; lia).
  exact (proj1 (bad_status_stops_monitor
                  (answering (Scrape.mkResponse 404 (inr window_cba)))
                  (fun _ => inr []) (fun _ _ => None) 50
                  "https://scrape.pastebin.com/api_scraping.php?limit=50"
                  (Scrape.mkResponse 404 (inr window_cba))
                  [serving window_cba] (MemCursor.mkMonitor "a")
                  calm [] (CacheMon.mkMonitor ∅)
                  healthy [] (FileCursor.mkMonitor "a" fresh_file)
                  eq_refl eq_refl Hc)).
Defined.

(** ** Constructing the monitor and starting again *)

Lemma apply_options_app (pre post : list Start.Option) (conf : Start.Conf) :
  Start.apply_options (pre ++ post) conf =
    match Start.apply_options pre conf with
    | (Some err, conf') => (Some err, conf')
    | (None, conf') => Start.apply_options post conf'
    end.
Proof.
  revert conf. induction pre as [|f pre IH]; intros conf; simpl; [done|].
  destruct (f conf) as [[err|] conf']; [done|]. apply IH.
Qed.

(** X14. [New] stops at the first option that fails: when the options before
    it succeed, [New] returns that option's error and no monitor, whatever
    options follow and without looking for a home directory or reading a
    state file.  In particular an option made by [SetStateFile] for a file
    that could not be opened makes [New] fail with the error of
    [os.OpenFile]. *)
Theorem New_stops_at_failing_option (os : Start.OS) (broken : option error)
    (pre post : list Start.Option) (bad : Start.Option)
    (c1 c2 : Start.Conf) (err e : error) :
  Start.apply_options pre (Start.mkConf "" None) = (None, c1) ->
  (bad c1 = (Some err, c2) ->
   Start.New os broken (pre ++ bad :: post) = (None, Some err))
  /\ Start.New os broken (pre ++ Start.SetStateFile (inl e) :: post)
     = (None, Some e).
Proof.
  intros Hpre. unfold Start.New. split.
  - intros Hbad. rewrite apply_options_app, Hpre. simpl. by rewrite Hbad.
  - by rewrite apply_options_app, Hpre.
Qed.

Lemma New_stops_at_failing_option_witness :
  Start.New (Start.mkOS (inr "/root") (fun a b => b) (fun _ => inr fresh_file))
    None
    ([Start.SetStateFile (inr fresh_file)]
       ++ Start.SetStateFile (inl (external "permission denied"))
       :: [Start.SetStateFile (inr fresh_file)])
  = (None, Some (external "permission denied")).
Proof.
  exact (proj2 (New_stops_at_failing_option
                  (Start.mkOS (inr "/root") (fun a b => b)
                     (fun _ => inr fresh_file))
                  None [Start.SetStateFile (inr fresh_file)]
                  [Start.SetStateFile (inr fresh_file)]
                  (Start.SetStateFile (inl (external "permission denied")))
                  (Start.mkConf "" (Some fresh_file))
                  (Start.mkConf "" (Some fresh_file))
                  (external "permission denied")
                  (external "permission denied") eq_refl)).
Defined.

(** X15. [New] without options looks for the state file in the home
    directory.  When the home directory is unknown, or when it is known and
    the file cannot be opened, [New] returns a monitor without state file
    together with an error; in the second case the error of [os.OpenFile] is
    dropped and the error returned is that of reading a file that is not
    open.  When the file opens and is empty, [New] returns the monitor with
    that file and an unset marker, and no error. *)
Theorem New_without_options (os : Start.OS) (home : string) (e : error)
    (f : FileCursor.File) :
  (Start.UserHomeDir os = inl e ->
   Start.New os None []
     = (Some (Start.mkConf "" None),
        Some (Errorf_w "get home directory: " e)))
  /\ (Start.UserHomeDir os = inr home ->
      Start.OpenFile os (Start.Join os home ".pbmon") = inl e ->
      Start.New os None []
        = (Some (Start.mkConf "" None),
           Some (Errorf_w "read state file: " Start.ErrInvalid)))
  /\ (Start.UserHomeDir os = inr home ->
      Start.OpenFile os (Start.Join os home ".pbmon") = inr f ->
      FileCursor.content f = [] ->
      Start.New os None [] = (Some (Start.mkConf "" (Some f)), None)).
Proof.
  unfold Start.New, Start.loadState.
  cbn [Start.apply_options Start.stateFile].
  split; [by intros ->|]. split.
  - by intros -> ->.
  - intros -> -> Hf. unfold FileCursor.readState, FileCursor.Read.
    by rewrite Hf, skipn_nil.
Qed.

Lemma New_without_options_witness :
  Start.New
    (Start.mkOS (inr "/root")
       (fun a b => String.append a (String.append "/" b))
       (fun _ => inl (external "permission denied")))
    None []
  = (Some (Start.mkConf "" None),
     Some (Errorf_w "read state file: " Start.ErrInvalid)).
Proof.
  exact (proj1 (proj2 (New_without_options
                  (Start.mkOS (inr "/root")
                     (fun a b => String.append a (String.append "/" b))
                     (fun _ => inl (external "permission denied")))
                  "/root" (external "permission denied") fresh_file))
           eq_refl eq_refl).
Defined.

Lemma readState_nine (nm : string) (k : string) (off : nat) :
  String.length k = FileCursor.pasteIDLen ->
  (FileCursor.readState None
     (FileCursor.reopen
        (FileCursor.mkFile nm (String.list_byte_of_string k) off))).1
  = (k, None).
Proof.
  intros Hk. rewrite readState_reopened.
  pose proof (length_list_byte_of_string k) as Hlen.
  destruct (String.list_byte_of_string k) as [|b bs] eqn:Hb.
  { simpl in Hlen. unfold FileCursor.pasteIDLen in Hk. lia. }
  rewrite firstn_all2 by lia.
  rewrite Hlen, Hk, Nat.sub_diag. simpl repeat. rewrite app_nil_r, <- Hb.
  by rewrite String.string_of_list_byte_of_string.
Qed.

Lemma file_fetch_last (env : Remote) (n : nat) (l1 l2 : list Paste)
    (x : Paste) (k : string) (f : FileCursor.File) :
  recent env n = inr (l1 ++ x :: l2) ->
  k <> "" ->
  Key x = k ->
  Forall (fun y => Key y <> k) l2 ->
  FileCursor.fetchNewPastes env n (FileCursor.mkMonitor k f)
    = ((l1, None), FileCursor.mkMonitor k f, [EvRecent n]).
Proof.
  intros Hw Hk Hx Hl2.
  assert (Hm : firstn (matchPos (l1 ++ x :: l2) k) (l1 ++ x :: l2) = l1).
  { rewrite (matchPos_last k l1 l2 x Hx Hl2).
    rewrite firstn_app, firstn_all, Nat.sub_diag. simpl. by rewrite app_nil_r. }
  unfold FileCursor.fetchNewPastes. rewrite Hw.
  simpl FileCursor.topKey. rewrite (eqb_unset _ Hk).
  destruct (l1 ++ x :: l2) as [|top tl] eqn:HW.
  { by destruct l1. }
  by rewrite Hm.
Qed.

(** X16. Starting again after a failed dispatch.  Let the window, with
    pairwise distinct keys, be [newer ++ x :: y :: mid ++ z :: tail], the
    marker be the key of [z], and let the cycle [do] hand over [mid] and [y]
    (oldest first) and fail on [x].  Then the state file holds the key of
    [y]; if that key is 9 bytes long, [New] with [SetStateFile] on the file
    opened anew builds a monitor whose marker is the key of [y], and a cycle
    of that monitor on the same window hands over exactly [x] and the pastes
    of [newer], oldest first: nothing is handed over twice and nothing is
    left out. *)
Theorem restart_resumes_at_failed_paste (env1 env2 : Remote)
    (fs1 fs2 : FileCursor.Disk) (os : Start.OS) (n : nat)
    (p : FileCursor.PastebinMonitor) (W newer mid tail : list Paste)
    (x y z : Paste) (err : error) (evx : list event) :
  W = newer ++ x :: (y :: mid) ++ z :: tail ->
  recent env1 n = inr W ->
  recent env2 n = inr W ->
  NoDup (map Key W) ->
  FileCursor.topKey p = Key z ->
  Key z <> "" ->
  String.length (Key y) = FileCursor.pasteIDLen ->
  forallb (accepted env1) (y :: mid) = true ->
  forallb (fun pp => saves fs1 (Key pp)) (y :: mid) = true ->
  processPaste env1 x = (Some err, evx) ->
  forallb (accepted env2) (newer ++ [x]) = true ->
  forallb (fun pp => saves fs2 (Key pp)) (newer ++ [x]) = true ->
  exists q conf r,
    FileCursor.do env1 fs1 n p
      = (Some (Errorf_w "process paste: " err), q,
         [EvRecent n] ++ flat_map handed (rev (y :: mid)) ++ evx)
    /\ FileCursor.content (FileCursor.stateFile q)
       = String.list_byte_of_string (Key y)
    /\ Start.New os None
         [Start.SetStateFile
            (inr (FileCursor.reopen (FileCursor.stateFile q)))]
       = (Some conf, None)
    /\ Start.topKey conf = Key y
    /\ Start.monitor conf = Some r
    /\ (FileCursor.do env2 fs2 n r).1.1 = None
    /\ delivered (FileCursor.do env2 fs2 n r).2 = rev (newer ++ [x]).
Proof.
  intros HW Hw1 Hw2 Hnd Hp Hz Hy Ha1 Hs1 Hx Ha2 Hs2.
  destruct p as [k f]. simpl in Hp. subst k.
  (* the first cycle *)
  assert (HW1 : W = (newer ++ x :: y :: mid) ++ z :: tail).
  { rewrite HW, <- app_assoc. done. }
  assert (Hf1 : FileCursor.fetchNewPastes env1 n
                  (FileCursor.mkMonitor (Key z) f)
                = ((newer ++ x :: y :: mid, None),
                   FileCursor.mkMonitor (Key z) f, [EvRecent n])).
  { apply (file_fetch_last env1 n _ tail z); [by rewrite <- HW1|done..|].
    rewrite HW1 in Hnd. by eapply NoDup_keys_after. }
  pose proof (do_stop_dispatch env1 fs1 n _ _ newer (y :: mid) x _ evx err
                Hf1 Ha1 Hs1 Hx) as Hdo1.
  rewrite after_rev in Hdo1.
  set (q := saved (FileCursor.mkMonitor (Key z) f) (Key y)) in *.
  (* the next start *)
  pose proof (readState_nine (FileCursor.name f) (Key y)
                (length (String.list_byte_of_string (Key y))) Hy) as Hread.
  destruct (FileCursor.readState None
              (FileCursor.reopen (FileCursor.stateFile q)))
    as [[top e] f'] eqn:Hrs.
  unfold q, saved in Hrs. simpl FileCursor.stateFile in Hrs.
  rewrite Hrs in Hread. simpl in Hread. injection Hread as -> ->.
  exists q, (Start.mkConf (Key y) (Some f')), (FileCursor.mkMonitor (Key y) f').
  split; [exact Hdo1|]. split; [done|]. split.
  { unfold Start.New, Start.loadState.
    cbn [Start.apply_options Start.SetStateFile Start.stateFile Start.topKey].
    unfold q, saved. simpl FileCursor.stateFile. by rewrite Hrs. }
  split; [done|]. split; [done|].
  (* the second cycle *)
  assert (Hyk : Key y <> "").
  { intros H0. rewrite H0 in Hy. discriminate. }
  assert (HW2 : W = (newer ++ [x]) ++ y :: (mid ++ z :: tail)).
  { rewrite HW, <- app_assoc. done. }
  assert (Hf2 : FileCursor.fetchNewPastes env2 n
                  (FileCursor.mkMonitor (Key y) f')
                = ((newer ++ [x], None), FileCursor.mkMonitor (Key y) f',
                   [EvRecent n])).
  { apply (file_fetch_last env2 n _ (mid ++ z :: tail) y);
      [by rewrite <- HW2|done..|].
    rewrite HW2 in Hnd. by eapply NoDup_keys_after. }
  rewrite (do_all _ _ _ _ _ _ _ Hf2 Ha2 Hs2). simpl.
  split; [done|]. apply delivered_handed.
Qed.

(** A window of four pastes with keys of 9 bytes, newest first. *)
Definition paste_n : Paste := mkPaste "newest001" "n" "ann" "text" "9" "/n".
Definition paste_f : Paste := mkPaste "failed002" "f" "bob" "text" "8" "/f".
Definition paste_k : Paste := mkPaste "okokok003" "k" "cat" "text" "7" "/k".
Definition paste_m : Paste := mkPaste "marker004" "m" "dan" "text" "6" "/m".
Definition window_nfkm : list Paste := [paste_n; paste_f; paste_k; paste_m].

Lemma restart_resumes_at_failed_paste_witness :
  exists q conf r,
    FileCursor.do (refusing window_nfkm "failed002") healthy 50
      (FileCursor.mkMonitor "marker004" fresh_file)
      = (Some (Errorf_w "process paste: " (external "callback failed")), q,
         [EvRecent 50] ++ flat_map handed (rev [paste_k]) ++ handed paste_f)
    /\ FileCursor.content (FileCursor.stateFile q)
       = String.list_byte_of_string (Key paste_k)
    /\ Start.New (Start.mkOS (inr "/root") (fun a b => b)
                    (fun _ => inr fresh_file)) None
         [Start.SetStateFile
            (inr (FileCursor.reopen (FileCursor.stateFile q)))]
       = (Some conf, None)
    /\ Start.topKey conf = Key paste_k
    /\ Start.monitor conf = Some r
    /\ (FileCursor.do (serving window_nfkm) healthy 50 r).1.1 = None
    /\ delivered (FileCursor.do (serving window_nfkm) healthy 50 r).2
       = rev ([paste_n] ++ [paste_f]).
Proof.
  assert (Hnd : NoDup (map Key window_nfkm)).
  { by apply (bool_decide_unpack (NoDup (map Key window_nfkm))). }
  assert (Hz : Key paste_m <> "") by discriminate.
  exact (restart_resumes_at_failed_paste
           (refusing window_nfkm "failed002") (serving window_nfkm)
           healthy healthy
           (Start.mkOS (inr "/root") (fun a b => b) (fun _ => inr fresh_file))
           50 (FileCursor.mkMonitor "marker004" fresh_file)
           window_nfkm [paste_n] [] [] paste_f paste_k paste_m
           (external "callback failed") (handed paste_f)
           eq_refl eq_refl eq_refl Hnd eq_refl Hz eq_refl eq_refl eq_refl
           eq_refl eq_refl eq_refl).
Defined.

(** X17. Only keys of 9 bytes are found again after a new start.  When the
    key saved last is 1 to 8 bytes long, the marker that [New] reads back
    from the state file is 9 bytes long and is not that key; so on a window
    whose keys are all shorter than 9 bytes the marker is not found, and
    [fetchNewPastes] returns the whole window but its last paste, the pastes
    handed over before the restart included. *)
Theorem restart_with_short_key (fs : FileCursor.Disk) (os : Start.OS)
    (k : string) (p : FileCursor.PastebinMonitor) (env : Remote) (n : nat)
    (W : list Paste) :
  saves fs k = true ->
  0 < String.length k < FileCursor.pasteIDLen ->
  W <> [] ->
  recent env n = inr W ->
  Forall (fun x => String.length (Key x) < FileCursor.pasteIDLen) W ->
  exists conf r,
    Start.New os None
      [Start.SetStateFile
         (inr (FileCursor.reopen
                 (FileCursor.stateFile (FileCursor.persist fs k p).2)))]
    = (Some conf, None)
    /\ Start.monitor conf = Some r
    /\ String.length (FileCursor.topKey r) = FileCursor.pasteIDLen
    /\ FileCursor.topKey r <> k
    /\ (FileCursor.fetchNewPastes env n r).1.1
       = (firstn (length W - 1) W, None).
Proof.
  intros Hs Hk HW Hw Hshort.
  assert (Hk0 : String.length k <> 0) by lia.
  pose proof (read_back_length fs k p Hs Hk0) as Hlen.
  pose proof (read_back_saved fs k p Hs) as Hrb.
  unfold read_back in Hlen, Hrb.
  destruct (FileCursor.readState None
              (FileCursor.reopen
                 (FileCursor.stateFile (FileCursor.persist fs k p).2)))
    as [[top e] f'] eqn:Hrs.
  simpl in Hlen.
  assert (He : e = None).
  { simpl in Hrb. destruct (String.list_byte_of_string k); by inversion Hrb. }
  subst e.
  exists (Start.mkConf top (Some f')), (FileCursor.mkMonitor top f').
  split.
  { unfold Start.New, Start.loadState.
    cbn [Start.apply_options Start.SetStateFile Start.stateFile Start.topKey].
    by rewrite Hrs. }
  split; [done|]. split; [done|]. split.
  { simpl. intros ->. lia. }
  assert (Htop : top <> "").
  { intros ->. simpl in Hlen. unfold FileCursor.pasteIDLen in Hlen. lia. }
  assert (Habs : Forall (fun x => Key x <> top) W).
  { eapply Forall_impl; [exact Hshort|]. simpl. intros x Hx Heq.
    rewrite Heq in Hx. lia. }
  unfold FileCursor.fetchNewPastes. rewrite Hw. simpl FileCursor.topKey.
  rewrite (eqb_unset _ Htop).
  destruct W as [|w tl]; [done|].
  by rewrite (matchPos_absent _ _ Habs).
Qed.

Lemma restart_with_short_key_witness :
  exists conf r,
    Start.New (Start.mkOS (inr "/root") (fun a b => b)
                 (fun _ => inr fresh_file)) None
      [Start.SetStateFile
         (inr (FileCursor.reopen
                 (FileCursor.stateFile
                    (FileCursor.persist healthy "a"
                       (FileCursor.mkMonitor "" fresh_file)).2)))]
    = (Some conf, None)
    /\ Start.monitor conf = Some r
    /\ String.length (FileCursor.topKey r) = FileCursor.pasteIDLen
    /\ FileCursor.topKey r <> "a"
    /\ (FileCursor.fetchNewPastes (serving window_cba) 50 r).1.1
       = (firstn (length window_cba - 1) window_cba, None).
Proof.
  assert (Hk : 0 < String.length "a" < FileCursor.pasteIDLen).
  { unfold FileCursor.pasteIDLen. simpl. lia. }
  assert (HW : window_cba <> []) by discriminate.
  assert (Hshort : Forall (fun x => String.length (Key x)
                                    < FileCursor.pasteIDLen) window_cba).
  { unfold FileCursor.pasteIDLen. repeat constructor; simpl; lia. }
  exact (restart_with_short_key healthy
           (Start.mkOS (inr "/root") (fun a b => b) (fun _ => inr fresh_file))
           "a" (FileCursor.mkMonitor "" fresh_file) (serving window_cba) 50
           window_cba eq_refl Hk HW eq_refl Hshort).
Defined.
